(** * liquid-wlan: the 802.11a/g frame synchronizer

    A shallow embedding of [src/wlanframesync.c] (the receiver state machine
    of the library) and of the Annex G reference table G.3, followed by the
    properties of the synchronizer that the design document states.

    The C code computes on [float] and [float complex] and calls into
    liquid-dsp (ring buffers, NCO, AGC) and an FFT library.  The embedding
    keeps the code's control flow and data flow and is parametric in
    - the single-precision arithmetic ([FloatOps]),
    - the collaborators that live outside the repository ([Collaborators]),
    - the constant table [wlanframe_S0], which the header declares and whose
      definition is not among the sources ([PLCPTables]).
    Module [Ref] instantiates all three (IEEE-754 binary32 arithmetic, a
    direct 64-point DFT, the short training symbol of the standard) so that
    the model runs on concrete buffers. *)

From Stdlib Require Import ZArith QArith Lia List Floats.SpecFloat.
From stdpp Require Import base list.
Import ListNotations.
Local Open Scope Z_scope.

(** ** Interfaces *)

(** Arithmetic on [float] (carrier [F]) and [float complex] (carrier [C]), one
    operation per C operator or <complex.h> function that the synchronizer
    uses.  [flit] is a decimal literal with suffix [f]; [cmplx a b] is
    [a + b*_Complex_I]; [cmulf] is a complex value times a [float]. *)
Class FloatOps (F C : Type) := {
  flit : Q -> F;
  fadd : F -> F -> F;
  fmul : F -> F -> F;
  fdiv : F -> F -> F;
  cmplx : F -> F -> C;
  crealf : C -> F;
  cimagf : C -> F;
  cadd : C -> C -> C;
  cmul : C -> C -> C;
  cmulf : C -> F -> C;
  conjf : C -> C
}.

(** liquid-dsp's [nco_crcf]: the oscillator's phase and its frequency (phase
    increment per sample). *)
Record nco_crcf (F : Type) := { theta : F; d_theta : F }.
Arguments theta {F} _.
Arguments d_theta {F} _.

(** The objects the synchronizer owns and does not implement: the FFT plan
    (a forward 64-point transform from buffer [x] to buffer [X]), the NCO
    operations and the AGC of the debugging trace ([AGC] is its state). *)
Class Collaborators (F C AGC : Type) := {
  fft_execute : list C -> list C;
  nco_crcf_create : nco_crcf F;
  nco_crcf_mix_down : nco_crcf F -> C -> C;
  nco_crcf_step : nco_crcf F -> nco_crcf F;
  agc_crcf_create : AGC;
  agc_crcf_execute : AGC -> C -> AGC;
  agc_crcf_get_rssi : AGC -> F
}.

(** [extern const float complex wlanframe_S0[64]]: the PLCP short sequence in
    the frequency domain. *)
Class PLCPTables (C : Type) := {
  wlanframe_S0 : list C
}.

(** ** Annex G, Table G.3 *)

(** The initializer of [annexg_G3], literal by literal, as (real, imaginary). *)
Definition annexg_G3_literals : list (Q * Q) := [
    (0.0460, 0.0460); ((-0.1320), 0.0020); ((-0.0130), (-0.0790)); (0.1430, (-0.0130));
    (0.0920, 0.0000); (0.1430, (-0.0130)); ((-0.0130), (-0.0790)); ((-0.1320), 0.0020);
    (0.0460, 0.0460); (0.0020, (-0.1320)); ((-0.0790), (-0.0130)); ((-0.0130), 0.1430);
    (0.0000, 0.0920); ((-0.0130), 0.1430); ((-0.0790), (-0.0130)); (0.0020, (-0.1320));
    (0.0460, 0.0460); ((-0.1320), 0.0020); ((-0.0130), (-0.0790)); (0.1430, (-0.0130));
    (0.0920, 0.0000); (0.1430, (-0.0130)); ((-0.0130), (-0.0790)); ((-0.1320), 0.0020);
    (0.0460, 0.0460); (0.0020, (-0.1320)); ((-0.0790), (-0.0130)); ((-0.0130), 0.1430);
    (0.0000, 0.0920); ((-0.0130), 0.1430); ((-0.0790), (-0.0130)); (0.0020, (-0.1320));
    (0.0460, 0.0460); ((-0.1320), 0.0020); ((-0.0130), (-0.0790)); (0.1430, (-0.0130));
    (0.0920, 0.0000); (0.1430, (-0.0130)); ((-0.0130), (-0.0790)); ((-0.1320), 0.0020);
    (0.0460, 0.0460); (0.0020, (-0.1320)); ((-0.0790), (-0.0130)); ((-0.0130), 0.1430);
    (0.0000, 0.0920); ((-0.0130), 0.1430); ((-0.0790), (-0.0130)); (0.0020, (-0.1320));
    (0.0460, 0.0460); ((-0.1320), 0.0020); ((-0.0130), (-0.0790)); (0.1430, (-0.0130));
    (0.0920, 0.0000); (0.1430, (-0.0130)); ((-0.0130), (-0.0790)); ((-0.1320), 0.0020);
    (0.0460, 0.0460); (0.0020, (-0.1320)); ((-0.0790), (-0.0130)); ((-0.0130), 0.1430);
    (0.0000, 0.0920); ((-0.0130), 0.1430); ((-0.0790), (-0.0130)); (0.0020, (-0.1320))
  ]%Q.

(** [float complex annexg_G3[64]]: each entry is [re + im*_Complex_I]. *)
Definition annexg_G3 {F C} `{FloatOps F C} : list C :=
  map (fun l => cmplx (flit (fst l)) (flit (snd l))) annexg_G3_literals.

(** ** liquid-dsp windows *)

(** [windowcf] and [windowf] are fixed-length ring buffers: [windowcf_read]
    exposes the contents oldest first, [windowcf_push] drops the oldest
    element and appends the new one, [windowcf_clear] sets every element to
    zero.  A window is modelled by the array that [windowcf_read] returns
    (liquid-dsp creates no window of length 0). *)
Definition window_create {A} (zero : A) (n : nat) : list A := replicate n zero.
Definition window_clear {A} (zero : A) (w : list A) : list A :=
  replicate (length w) zero.
Definition window_push {A} (w : list A) (v : A) : list A := drop 1 w ++ [v].
Definition window_read {A} (w : list A) : list A := w.

(** ** The synchronizer object *)

(** The values of the anonymous [enum] behind the field [state]; the field
    is a C integer. *)
Definition WLANFRAMESYNC_STATE_SEEKPLCP : Z := 0.
Definition WLANFRAMESYNC_STATE_RXSHORT0 : Z := 1.
Definition WLANFRAMESYNC_STATE_RXSHORT1 : Z := 2.
Definition WLANFRAMESYNC_STATE_RXLONG0 : Z := 3.
Definition WLANFRAMESYNC_STATE_RXLONG1 : Z := 4.
Definition WLANFRAMESYNC_STATE_RXSIGNAL : Z := 5.
Definition WLANFRAMESYNC_STATE_RXDATA : Z := 6.

Definition DEBUG_WLANFRAMESYNC_BUFFER_LEN : nat := 2048.

(** The literal [0.054127f] of [wlanframesync_estimate_gain_S0], which the
    source annotates with [sqrt(12)/64]. *)
Definition S0_gain : Q := 0.054127.

(** The 12 bins of the short sequence that carry energy, in the order in
    which [wlanframesync_estimate_gain_S0] assigns them. *)
Definition S0_bins : list nat := [40; 44; 48; 52; 56; 60; 4; 8; 12; 16; 20; 24]%nat.

(** The (left, right) index pairs of the products that
    [wlanframesync_S0_metrics] accumulates, in program order. *)
Definition S0_metric_pairs : list (nat * nat) :=
  [(44, 40); (48, 44); (52, 48); (56, 52); (60, 56);
   (8, 4); (12, 8); (16, 12); (20, 16); (24, 20)]%nat.

Section Synchronizer.
Context {F C AGC : Type}.
Context {FO : FloatOps F C} {CO : Collaborators F C AGC} {TB : PLCPTables C}.

(** [0.0f] converted to [float complex]. *)
Definition czero : C := cmplx (flit 0) (flit 0).

#[local] Instance C_inhabited : Inhabited C := populate czero.

(** [struct wlanframesync_s], restricted to the fields that the functions
    below read or write: [buf_x] and [buf_X] are the transform buffers [x]
    and [X]; a window holds the array its read operation returns.  The
    timer is the [signed int] of the source taken as an integer: the
    increments of the source never reach the limits of the type
    (see [reachable_inv]). *)
Record wlanframesync_s := {
  buf_X : list C;
  buf_x : list C;
  input_buffer : list C;
  nco_rx : nco_crcf F;
  G0a : list C;
  state : Z;
  timer : Z;
  agc_rx : AGC;
  debug_x : list C;
  debug_rssi : list F
}.

Definition set_buf_X v q :=
  {| buf_X := v; buf_x := buf_x q; input_buffer := input_buffer q;
     nco_rx := nco_rx q; G0a := G0a q; state := state q; timer := timer q;
     agc_rx := agc_rx q; debug_x := debug_x q; debug_rssi := debug_rssi q |}.
Definition set_buf_x v q :=
  {| buf_X := buf_X q; buf_x := v; input_buffer := input_buffer q;
     nco_rx := nco_rx q; G0a := G0a q; state := state q; timer := timer q;
     agc_rx := agc_rx q; debug_x := debug_x q; debug_rssi := debug_rssi q |}.
Definition set_input_buffer v q :=
  {| buf_X := buf_X q; buf_x := buf_x q; input_buffer := v;
     nco_rx := nco_rx q; G0a := G0a q; state := state q; timer := timer q;
     agc_rx := agc_rx q; debug_x := debug_x q; debug_rssi := debug_rssi q |}.
Definition set_nco_rx v q :=
  {| buf_X := buf_X q; buf_x := buf_x q; input_buffer := input_buffer q;
     nco_rx := v; G0a := G0a q; state := state q; timer := timer q;
     agc_rx := agc_rx q; debug_x := debug_x q; debug_rssi := debug_rssi q |}.
Definition set_G0a v q :=
  {| buf_X := buf_X q; buf_x := buf_x q; input_buffer := input_buffer q;
     nco_rx := nco_rx q; G0a := v; state := state q; timer := timer q;
     agc_rx := agc_rx q; debug_x := debug_x q; debug_rssi := debug_rssi q |}.
Definition set_state v q :=
  {| buf_X := buf_X q; buf_x := buf_x q; input_buffer := input_buffer q;
     nco_rx := nco_rx q; G0a := G0a q; state := v; timer := timer q;
     agc_rx := agc_rx q; debug_x := debug_x q; debug_rssi := debug_rssi q |}.
Definition set_timer v q :=
  {| buf_X := buf_X q; buf_x := buf_x q; input_buffer := input_buffer q;
     nco_rx := nco_rx q; G0a := G0a q; state := state q; timer := v;
     agc_rx := agc_rx q; debug_x := debug_x q; debug_rssi := debug_rssi q |}.
Definition set_agc_rx v q :=
  {| buf_X := buf_X q; buf_x := buf_x q; input_buffer := input_buffer q;
     nco_rx := nco_rx q; G0a := G0a q; state := state q; timer := timer q;
     agc_rx := v; debug_x := debug_x q; debug_rssi := debug_rssi q |}.
Definition set_debug_x v q :=
  {| buf_X := buf_X q; buf_x := buf_x q; input_buffer := input_buffer q;
     nco_rx := nco_rx q; G0a := G0a q; state := state q; timer := timer q;
     agc_rx := agc_rx q; debug_x := v; debug_rssi := debug_rssi q |}.
Definition set_debug_rssi v q :=
  {| buf_X := buf_X q; buf_x := buf_x q; input_buffer := input_buffer q;
     nco_rx := nco_rx q; G0a := G0a q; state := state q; timer := timer q;
     agc_rx := agc_rx q; debug_x := debug_x q; debug_rssi := v |}.

(** What a call makes observable outside the object.  [ev_callback] is a
    call of the user's [callback] (rate, length, payload, validity flag);
    [ev_printf] is the line that [wlanframesync_execute_seekplcp] prints:
    its five arguments [sqrt(g)], [-10*log10(g)], [cabsf(s_hat)],
    [cargf(s_hat)] and [tau_hat = cargf(s_hat)*32/(2*M_PI)] are functions of
    the two values the event records. *)
Inductive event :=
| ev_callback (rate len : Z) (payload : list Z) (valid : bool)
| ev_printf (g : F) (s_hat : C).

Definition is_callback (e : event) : bool :=
  match e with ev_callback _ _ _ _ => true | ev_printf _ _ => false end.

(** ** The monad of the synchronizer's functions

    A function of the source takes the object by pointer, updates it in
    place, may print, and in one place ends the process with [exit(1)].
    [Done a q out]: the call returned [a], left the object as [q] and
    emitted [out]; [Exit1 out]: the process printed the invalid-state
    message on stderr and exited with status 1 after emitting [out]. *)
Inductive outcome (A : Type) :=
| Done (a : A) (q : wlanframesync_s) (out : list event)
| Exit1 (out : list event).
Arguments Done {A} _ _ _.
Arguments Exit1 {A} _.

Definition Sync (A : Type) := wlanframesync_s -> outcome A.

Definition ret {A} (a : A) : Sync A := fun q => Done a q [].

Definition emitted {A} (pre : list event) (r : outcome A) : outcome A :=
  match r with
  | Done a q out => Done a q (pre ++ out)
  | Exit1 out => Exit1 (pre ++ out)
  end.

Definition bind {A B} (m : Sync A) (k : A -> Sync B) : Sync B :=
  fun q =>
    match m q with
    | Done a q' out => emitted out (k a q')
    | Exit1 out => Exit1 out
    end.

Definition get : Sync wlanframesync_s := fun q => Done q q [].
Definition modify (f : wlanframesync_s -> wlanframesync_s) : Sync unit :=
  fun q => Done tt (f q) [].
Definition emit (e : event) : Sync unit := fun q => Done tt q [e].
Definition exit1 {A} : Sync A := fun _ => Exit1 [].

End Synchronizer.

Arguments wlanframesync_s : clear implicits.
Arguments event : clear implicits.
Arguments outcome : clear implicits.
Arguments Done {F C AGC A} _ _ _.
Arguments Exit1 {F C AGC A} _.
Arguments Sync : clear implicits.

Notation "x <- m ;; k" := (bind m (fun x => k))
  (at level 100, m at next level, k at level 200, right associativity).
Notation "m ;; k" := (bind m (fun _ => k))
  (at level 100, k at level 200, right associativity).

(** ** The functions of wlanframesync.c *)

Section Functions.
Context {F C AGC : Type}.
Context {FO : FloatOps F C} {CO : Collaborators F C AGC} {TB : PLCPTables C}.
#[local] Existing Instance C_inhabited.

Abbreviation sync := (wlanframesync_s F C AGC).
Abbreviation M := (Sync F C AGC).

(** [wlanframesync_reset] *)
Definition wlanframesync_reset : M unit :=
  modify (fun q => set_input_buffer (window_clear czero (input_buffer q)) q) ;;
  modify (set_state WLANFRAMESYNC_STATE_SEEKPLCP) ;;
  modify (set_timer 0).

(** [wlanframesync_create], run on the freshly allocated object: [malloc]
    leaves the struct and the two transform buffers with indeterminate
    content, so the fields that are not assigned here keep what the
    argument object holds.  The callback, the options, the pilot generator,
    the demodulator and the encoded-message buffer are fields outside
    [wlanframesync_s]. *)
Definition wlanframesync_create : M unit :=
  modify (set_input_buffer (window_create czero 80)) ;;
  modify (set_nco_rx nco_crcf_create) ;;
  wlanframesync_reset ;;
  modify (set_agc_rx agc_crcf_create) ;;
  modify (set_debug_x (window_create czero DEBUG_WLANFRAMESYNC_BUFFER_LEN)) ;;
  modify (set_debug_rssi (window_create (flit 0) DEBUG_WLANFRAMESYNC_BUFFER_LEN)).

(** [wlanframesync_get_rssi] and [wlanframesync_get_cfo] *)
Definition wlanframesync_get_rssi (q : sync) : F := flit 0.
Definition wlanframesync_get_cfo (q : sync) : F := flit 0.

(** [wlanframesync_estimate_gain_S0]: [x_in] is the array that [_x] points
    to; the result is the array written through [_G]. *)
Definition wlanframesync_estimate_gain_S0 (x_in : list C) : M (list C) :=
  modify (set_buf_x (take 64 x_in)) ;;
  modify (fun q => set_buf_X (fft_execute (buf_x q)) q) ;;
  q <- get ;;
  let X := buf_X q in
  let gain := flit S0_gain in
  let S0 := wlanframe_S0 in
  let G := replicate 64 czero in
  let G := <[40%nat := cmulf (cmul (X !!! 40%nat) (conjf (S0 !!! 40%nat))) gain]> G in
  let G := <[44%nat := cmulf (cmul (X !!! 44%nat) (conjf (S0 !!! 44%nat))) gain]> G in
  let G := <[48%nat := cmulf (cmul (X !!! 48%nat) (conjf (S0 !!! 48%nat))) gain]> G in
  let G := <[52%nat := cmulf (cmul (X !!! 52%nat) (conjf (S0 !!! 52%nat))) gain]> G in
  let G := <[56%nat := cmulf (cmul (X !!! 56%nat) (conjf (S0 !!! 56%nat))) gain]> G in
  let G := <[60%nat := cmulf (cmul (X !!! 60%nat) (conjf (S0 !!! 60%nat))) gain]> G in
  let G := <[ 4%nat := cmulf (cmul (X !!!  4%nat) (conjf (S0 !!!  4%nat))) gain]> G in
  let G := <[ 8%nat := cmulf (cmul (X !!!  8%nat) (conjf (S0 !!!  8%nat))) gain]> G in
  let G := <[12%nat := cmulf (cmul (X !!! 12%nat) (conjf (S0 !!! 12%nat))) gain]> G in
  let G := <[16%nat := cmulf (cmul (X !!! 16%nat) (conjf (S0 !!! 16%nat))) gain]> G in
  let G := <[20%nat := cmulf (cmul (X !!! 20%nat) (conjf (S0 !!! 20%nat))) gain]> G in
  let G := <[24%nat := cmulf (cmul (X !!! 24%nat) (conjf (S0 !!! 24%nat))) gain]> G in
  ret G.

(** [wlanframesync_S0_metrics] (the branch that is compiled, [#else]); the
    result is the value stored through [_s_hat]. *)
Definition wlanframesync_S0_metrics (G : list C) : C :=
  let s_hat := czero in
  let s_hat := cadd s_hat (cmul (G !!! 44%nat) (conjf (G !!! 40%nat))) in
  let s_hat := cadd s_hat (cmul (G !!! 48%nat) (conjf (G !!! 44%nat))) in
  let s_hat := cadd s_hat (cmul (G !!! 52%nat) (conjf (G !!! 48%nat))) in
  let s_hat := cadd s_hat (cmul (G !!! 56%nat) (conjf (G !!! 52%nat))) in
  let s_hat := cadd s_hat (cmul (G !!! 60%nat) (conjf (G !!! 56%nat))) in
  let s_hat := cadd s_hat (cmul (G !!!  8%nat) (conjf (G !!!  4%nat))) in
  let s_hat := cadd s_hat (cmul (G !!! 12%nat) (conjf (G !!!  8%nat))) in
  let s_hat := cadd s_hat (cmul (G !!! 16%nat) (conjf (G !!! 12%nat))) in
  let s_hat := cadd s_hat (cmul (G !!! 20%nat) (conjf (G !!! 16%nat))) in
  let s_hat := cadd s_hat (cmul (G !!! 24%nat) (conjf (G !!! 20%nat))) in
  cmulf s_hat (flit 0.1).

(** The first loop of [wlanframesync_execute_seekplcp]: the energy of
    [rc[16..80)], accumulated in index order. *)
Definition seekplcp_energy (rc : list C) : F :=
  fold_left
    (fun g i =>
       fadd g (fadd (fmul (crealf (rc !!! i)) (crealf (rc !!! i)))
                    (fmul (cimagf (rc !!! i)) (cimagf (rc !!! i)))))
    (seq 16 64) (flit 0).

(** [wlanframesync_execute_seekplcp] *)
Definition wlanframesync_execute_seekplcp : M unit :=
  modify (fun q => set_timer (timer q + 1) q) ;;
  q <- get ;;
  if timer q <? 64 then ret tt else
  modify (set_timer 0) ;;
  q <- get ;;
  let rc := window_read (input_buffer q) in
  let g := seekplcp_energy rc in
  let g := fdiv (flit 64) (fadd g (flit 1e-6)) in
  G <- wlanframesync_estimate_gain_S0 (drop 16 rc) ;;
  modify (set_G0a G) ;;
  q <- get ;;
  let s_hat := wlanframesync_S0_metrics (G0a q) in
  let s_hat := cmulf s_hat g in
  emit (ev_printf g s_hat).

(** The six handlers with an empty body. *)
Definition wlanframesync_execute_rxshort0 : M unit := ret tt.
Definition wlanframesync_execute_rxshort1 : M unit := ret tt.
Definition wlanframesync_execute_rxlong0 : M unit := ret tt.
Definition wlanframesync_execute_rxlong1 : M unit := ret tt.
Definition wlanframesync_execute_rxsignal : M unit := ret tt.
Definition wlanframesync_execute_rxdata : M unit := ret tt.

(** The body of the [for] loop of [wlanframesync_execute] for the sample
    [x = _buffer[i]]; the middle part is compiled in because
    [DEBUG_WLANFRAMESYNC] is 1. *)
Definition execute_sample (x : C) : M unit :=
  q <- get ;;
  x <- (if negb (state q =? WLANFRAMESYNC_STATE_SEEKPLCP)
        then let y := nco_crcf_mix_down (nco_rx q) x in
             modify (fun q => set_nco_rx (nco_crcf_step (nco_rx q)) q) ;;
             ret y
        else ret x) ;;
  modify (fun q => set_input_buffer (window_push (input_buffer q) x) q) ;;
  modify (fun q => set_agc_rx (agc_crcf_execute (agc_rx q) x) q) ;;
  modify (fun q => set_debug_x (window_push (debug_x q) x) q) ;;
  modify (fun q =>
            set_debug_rssi (window_push (debug_rssi q) (agc_crcf_get_rssi (agc_rx q))) q) ;;
  q <- get ;;
  match state q with
  | 0 => wlanframesync_execute_seekplcp
  | 1 => wlanframesync_execute_rxshort0
  | 2 => wlanframesync_execute_rxshort1
  | 3 => wlanframesync_execute_rxlong0
  | 4 => wlanframesync_execute_rxlong1
  | 5 => wlanframesync_execute_rxsignal
  | 6 => wlanframesync_execute_rxdata
  | _ => exit1
  end.

(** The object after the statements of the loop body between the NCO and the
    [switch]: the sample [y] has been pushed into the input buffer, run
    through the AGC and recorded in the two debugging windows. *)
Definition pushed (y : C) (q : sync) : sync :=
  let q := set_input_buffer (window_push (input_buffer q) y) q in
  let q := set_agc_rx (agc_crcf_execute (agc_rx q) y) q in
  let q := set_debug_x (window_push (debug_x q) y) q in
  set_debug_rssi (window_push (debug_rssi q) (agc_crcf_get_rssi (agc_rx q))) q.

(** [wlanframesync_execute]: [buffer] is [_buffer[0.._n)]. *)
Fixpoint wlanframesync_execute (buffer : list C) : M unit :=
  match buffer with
  | [] => ret tt
  | x :: rest => execute_sample x ;; wlanframesync_execute rest
  end.

(** ** The design document's reading of the metric *)

(** The successor of a bin in the cyclic order of the 12 bins: from the end
    of one cluster to the start of the other. *)
Definition next_S0_bin (k : nat) : nat :=
  if (k =? 24)%nat then 40%nat else if (k =? 60)%nat then 4%nat else (k + 4)%nat.

(** "the sum over the 12 bins of G0[k+4]*conj(G0[k]), wrapping across the
    two bin clusters". *)
Definition S0_metric_12_wrapped (G : list C) : C :=
  fold_left (fun s k => cadd s (cmul (G !!! next_S0_bin k) (conjf (G !!! k))))
            [4; 8; 12; 16; 20; 24; 40; 44; 48; 52; 56; 60]%nat czero.

(** The same 12 terms with the index [k+4] taken modulo the array length. *)
Definition S0_metric_12_mod64 (G : list C) : C :=
  fold_left (fun s k => cadd s (cmul (G !!! ((k + 4) mod 64)%nat) (conjf (G !!! k))))
            [4; 8; 12; 16; 20; 24; 40; 44; 48; 52; 56; 60]%nat czero.

(** The four remaining internal functions have an empty body. *)
Definition wlanframesync_estimate_gain_S1 (x_in : list C) : M unit := ret tt.
Definition wlanframesync_estimate_eqgain (ntaps : Z) : M unit := ret tt.
Definition wlanframesync_estimate_eqgain_poly (order : Z) : M unit := ret tt.
Definition wlanframesync_rxsymbol : M unit := ret tt.

(** ** The samples as the loop mixes them

    Outside SEEKPLCP every sample is mixed down by the NCO in the phase it
    has at that sample, and the NCO is stepped once per sample: the list of
    the samples that the loop pushes for the input [buffer], starting with
    the NCO [n]. *)
Fixpoint mixed_down (n : nco_crcf F) (buffer : list C) : list C :=
  match buffer with
  | [] => []
  | x :: rest => nco_crcf_mix_down n x :: mixed_down (nco_crcf_step n) rest
  end.

(** ** Reachable objects

    What a program can hold: an object out of [wlanframesync_create], and
    whatever [wlanframesync_reset] and [wlanframesync_execute] make of a
    reachable object when they return. *)
Inductive reachable : sync -> Prop :=
| reach_create mem q out :
    wlanframesync_create mem = Done tt q out -> reachable q
| reach_reset q q' out :
    reachable q -> wlanframesync_reset q = Done tt q' out -> reachable q'
| reach_execute buffer q q' out :
    reachable q -> wlanframesync_execute buffer q = Done tt q' out -> reachable q'.

End Functions.

(** ** A reference provider

    IEEE-754 binary32 ([Stdlib]'s [SpecFloat] at precision 24), complex
    arithmetic by the textbook formulas with every operation rounded, a
    direct 64-point DFT, and small stand-ins for the liquid-dsp NCO and AGC.
    The theorems on the synchronizer hold for every provider; this one serves
    to run the model on concrete buffers. *)
Module Ref.

Definition F32 : Type := spec_float.
Definition prec : Z := 24.
Definition emax : Z := 128.

(** A decimal literal, correctly rounded. *)
Definition f32_lit (q : Q) : F32 :=
  match Qnum q with
  | Z0 => S754_zero false
  | Zpos n => SFdiv prec emax (S754_finite false n 0) (S754_finite false (Qden q) 0)
  | Zneg n => SFdiv prec emax (S754_finite true n 0) (S754_finite false (Qden q) 0)
  end.

Definition f32_add : F32 -> F32 -> F32 := SFadd prec emax.
Definition f32_sub : F32 -> F32 -> F32 := SFsub prec emax.
Definition f32_mul : F32 -> F32 -> F32 := SFmul prec emax.
Definition f32_div : F32 -> F32 -> F32 := SFdiv prec emax.
Definition f32_ltb : F32 -> F32 -> bool := SFltb.

Record C32 := { re : F32; im : F32 }.

Definition c32_add (a b : C32) : C32 :=
  {| re := f32_add (re a) (re b); im := f32_add (im a) (im b) |}.
Definition c32_mul (a b : C32) : C32 :=
  {| re := f32_sub (f32_mul (re a) (re b)) (f32_mul (im a) (im b));
     im := f32_add (f32_mul (re a) (im b)) (f32_mul (im a) (re b)) |}.
Definition c32_mulf (a : C32) (r : F32) : C32 :=
  {| re := f32_mul (re a) r; im := f32_mul (im a) r |}.
Definition c32_conj (a : C32) : C32 :=
  {| re := re a; im := SFopp (im a) |}.

#[global] Instance float32 : FloatOps F32 C32 := {|
  flit := f32_lit;
  fadd := f32_add;
  fmul := f32_mul;
  fdiv := f32_div;
  cmplx := Build_C32;
  crealf := re;
  cimagf := im;
  cadd := c32_add;
  cmul := c32_mul;
  cmulf := c32_mulf;
  conjf := c32_conj
|}.

#[global] Instance C32_inhabited : Inhabited C32 := populate czero.

(** exp(-2*pi*i*k/64) for k = 0..63, to ten decimals. *)
Definition twiddle_literals : list (Q * Q) := [
  (1.0000000000, 0); (0.9951847267, (-0.0980171403));
  (0.9807852804, (-0.1950903220)); (0.9569403357, (-0.2902846773));
  (0.9238795325, (-0.3826834324)); (0.8819212643, (-0.4713967368));
  (0.8314696123, (-0.5555702330)); (0.7730104534, (-0.6343932842));
  (0.7071067812, (-0.7071067812)); (0.6343932842, (-0.7730104534));
  (0.5555702330, (-0.8314696123)); (0.4713967368, (-0.8819212643));
  (0.3826834324, (-0.9238795325)); (0.2902846773, (-0.9569403357));
  (0.1950903220, (-0.9807852804)); (0.0980171403, (-0.9951847267));
  (0, (-1.0000000000)); ((-0.0980171403), (-0.9951847267));
  ((-0.1950903220), (-0.9807852804)); ((-0.2902846773), (-0.9569403357));
  ((-0.3826834324), (-0.9238795325)); ((-0.4713967368), (-0.8819212643));
  ((-0.5555702330), (-0.8314696123)); ((-0.6343932842), (-0.7730104534));
  ((-0.7071067812), (-0.7071067812)); ((-0.7730104534), (-0.6343932842));
  ((-0.8314696123), (-0.5555702330)); ((-0.8819212643), (-0.4713967368));
  ((-0.9238795325), (-0.3826834324)); ((-0.9569403357), (-0.2902846773));
  ((-0.9807852804), (-0.1950903220)); ((-0.9951847267), (-0.0980171403));
  ((-1.0000000000), 0); ((-0.9951847267), 0.0980171403);
  ((-0.9807852804), 0.1950903220); ((-0.9569403357), 0.2902846773);
  ((-0.9238795325), 0.3826834324); ((-0.8819212643), 0.4713967368);
  ((-0.8314696123), 0.5555702330); ((-0.7730104534), 0.6343932842);
  ((-0.7071067812), 0.7071067812); ((-0.6343932842), 0.7730104534);
  ((-0.5555702330), 0.8314696123); ((-0.4713967368), 0.8819212643);
  ((-0.3826834324), 0.9238795325); ((-0.2902846773), 0.9569403357);
  ((-0.1950903220), 0.9807852804); ((-0.0980171403), 0.9951847267);
  (0, 1.0000000000); (0.0980171403, 0.9951847267);
  (0.1950903220, 0.9807852804); (0.2902846773, 0.9569403357);
  (0.3826834324, 0.9238795325); (0.4713967368, 0.8819212643);
  (0.5555702330, 0.8314696123); (0.6343932842, 0.7730104534);
  (0.7071067812, 0.7071067812); (0.7730104534, 0.6343932842);
  (0.8314696123, 0.5555702330); (0.8819212643, 0.4713967368);
  (0.9238795325, 0.3826834324); (0.9569403357, 0.2902846773);
  (0.9807852804, 0.1950903220); (0.9951847267, 0.0980171403)
]%Q.

Definition twiddle : list C32 :=
  map (fun l => Build_C32 (f32_lit (fst l)) (f32_lit (snd l))) twiddle_literals.

(** X[k] = sum over n of x[n]*exp(-2*pi*i*k*n/64), accumulated in the order
    of n. *)
Definition dft64 (x : list C32) : list C32 :=
  map (fun k =>
         fold_left (fun acc n => c32_add acc (c32_mul (x !!! n) (twiddle !!! ((k * n) mod 64)%nat)))
                   (seq 0 64) czero)
      (seq 0 64).

(** cos and sin by their Taylor polynomials of degree 10 and 11. *)
Definition f32_cos (t : F32) : F32 :=
  let u := f32_mul t t in
  let p := f32_lit (-1 # 3628800) in
  let p := f32_add (f32_lit (1 # 40320)) (f32_mul u p) in
  let p := f32_add (f32_lit (-1 # 720)) (f32_mul u p) in
  let p := f32_add (f32_lit (1 # 24)) (f32_mul u p) in
  let p := f32_add (f32_lit (-1 # 2)) (f32_mul u p) in
  f32_add (f32_lit 1) (f32_mul u p).
Definition f32_sin (t : F32) : F32 :=
  let u := f32_mul t t in
  let p := f32_lit (-1 # 39916800) in
  let p := f32_add (f32_lit (1 # 362880)) (f32_mul u p) in
  let p := f32_add (f32_lit (-1 # 5040)) (f32_mul u p) in
  let p := f32_add (f32_lit (1 # 120)) (f32_mul u p) in
  let p := f32_add (f32_lit (-1 # 6)) (f32_mul u p) in
  f32_mul t (f32_add (f32_lit 1) (f32_mul u p)).

(** The oscillator: [mix_down] multiplies by exp(-i*theta), [step] adds the
    frequency to the phase. *)
Definition nco_mix_down (n : nco_crcf F32) (x : C32) : C32 :=
  c32_mul x (Build_C32 (f32_cos (theta n)) (SFopp (f32_sin (theta n)))).
Definition nco_step (n : nco_crcf F32) : nco_crcf F32 :=
  {| theta := f32_add (theta n) (d_theta n); d_theta := d_theta n |}.

(** The level detector of the debugging trace: a first-order estimate of the
    signal energy with the loop bandwidth 1e-2 that the constructor sets. *)
Definition agc_execute (e : F32) (x : C32) : F32 :=
  let p := f32_add (f32_mul (re x) (re x)) (f32_mul (im x) (im x)) in
  f32_add e (f32_mul (f32_lit 0.01) (f32_sub p e)).

#[global] Instance collaborators : Collaborators F32 C32 F32 := {|
  fft_execute := dft64;
  nco_crcf_create := {| theta := f32_lit 0; d_theta := f32_lit 0 |};
  nco_crcf_mix_down := nco_mix_down;
  nco_crcf_step := nco_step;
  agc_crcf_create := f32_lit 1;
  agc_crcf_execute := agc_execute;
  agc_crcf_get_rssi := fun e => e
|}.

(** The signs of the short training symbol of the standard on the 12 bins
    of [S0_bins] (bins 38..63 hold the subcarriers -26..-1). *)
Definition S0_sign (k : nat) : Z :=
  match k with
  | (4 | 8 | 44 | 52 | 56)%nat => -1
  | (12 | 16 | 20 | 24 | 40 | 48 | 60)%nat => 1
  | _ => 0
  end.

(** Modelled from the spec: [wlanframe_S0] is declared in the header and
    defined outside the sources.  The design document gives its support,
    energy on the 12 bins of [S0_bins] and zero elsewhere; the values are
    those of the short training symbol of the standard, sqrt(13/6)*(1+j)
    times the sign of the bin. *)
Definition S0_table : list C32 :=
  map (fun k =>
         match S0_sign k with
         | 1 => Build_C32 (f32_lit 1.4719601) (f32_lit 1.4719601)
         | -1 => Build_C32 (f32_lit (-1.4719601)) (f32_lit (-1.4719601))
         | _ => czero
         end)
      (seq 0 64).

#[global] Instance tables : PLCPTables C32 := {| wlanframe_S0 := S0_table |}.

Abbreviation sync := (wlanframesync_s F32 C32 F32).

(** The content of freshly allocated memory, taken as all zeros. *)
Definition fresh : sync :=
  {| buf_X := replicate 64 czero; buf_x := replicate 64 czero;
     input_buffer := []; nco_rx := {| theta := f32_lit 0; d_theta := f32_lit 0 |};
     G0a := replicate 64 czero; state := 0; timer := 0;
     agc_rx := f32_lit 0; debug_x := []; debug_rssi := [] |}.

(** The object that [wlanframesync_create] returns. *)
Definition created : sync :=
  match wlanframesync_create fresh with
  | Done _ q _ => q
  | Exit1 _ => fresh
  end.

(** The created object with the state overwritten by RXSHORT0. *)
Definition in_rxshort0 : sync := set_state WLANFRAMESYNC_STATE_RXSHORT0 created.

(** An array of gains: 1 at the bins 4, 8, 24 and 40, 0 elsewhere. *)
Definition G_cross : list C32 :=
  let one := Build_C32 (f32_lit 1) (f32_lit 0) in
  <[4%nat := one]> (<[8%nat := one]> (<[24%nat := one]> (<[40%nat := one]>
    (replicate 64 czero)))).

(** The detection criterion of the design document: |s_hat| above the
    threshold (compared on the squares) and the energy above the floor. *)
Definition detection_criterion (threshold floor : F32) (s_hat : C32) (energy : F32) : bool :=
  f32_ltb (f32_mul threshold threshold)
          (f32_add (f32_mul (re s_hat) (re s_hat)) (f32_mul (im s_hat) (im s_hat)))
  && f32_ltb floor energy.

End Ref.


(** * Properties *)

Section Properties.
Context {F C AGC : Type}.
Context {FO : FloatOps F C} {CO : Collaborators F C AGC} {TB : PLCPTables C}.
#[local] Existing Instance C_inhabited.

Abbreviation sync := (wlanframesync_s F C AGC).
Abbreviation M := (Sync F C AGC).

(** ** The monad *)

Lemma emitted_nil {A} (r : outcome F C AGC A) : emitted [] r = r.
Proof. destruct r; reflexivity. Qed.

Lemma emitted_emitted {A} (o1 o2 : list (event F C)) (r : outcome F C AGC A) :
  emitted o1 (emitted o2 r) = emitted (o1 ++ o2) r.
Proof. destruct r; simpl; rewrite <- app_assoc; reflexivity. Qed.

Lemma bind_ret_l {A B} (a : A) (k : A -> M B) (q : sync) :
  (x <- ret a ;; k x) q = k a q.
Proof. unfold bind, ret. apply emitted_nil. Qed.

Lemma bind_assoc {A B D} (m : M A) (k : A -> M B) (h : B -> M D) (q : sync) :
  (y <- (x <- m ;; k x) ;; h y) q = (x <- m ;; y <- k x ;; h y) q.
Proof.
  unfold bind. destruct (m q) as [a q1 o1|o1]; simpl; [|reflexivity].
  destruct (k a q1) as [b q2 o2|o2]; simpl; [|reflexivity].
  symmetry. apply emitted_emitted.
Qed.

Lemma bind_ext {A B} (m : M A) (k1 k2 : A -> M B) (q : sync) :
  (forall a q', k1 a q' = k2 a q') -> (x <- m ;; k1 x) q = (x <- m ;; k2 x) q.
Proof.
  intro E. unfold bind. destruct (m q) as [a q1 o1|o1]; [|reflexivity].
  rewrite E. reflexivity.
Qed.

(** ** The bulk entry point *)

Lemma execute_cons (x : C) (buffer : list C) (q : sync) :
  wlanframesync_execute (x :: buffer) q
  = (wlanframesync_execute [x] ;; wlanframesync_execute buffer) q.
Proof.
  change (wlanframesync_execute [x]) with (execute_sample x ;; ret tt).
  change (wlanframesync_execute (x :: buffer))
    with (execute_sample x ;; wlanframesync_execute buffer).
  rewrite bind_assoc. unfold bind at 1 2.
  destruct (execute_sample x q) as [[] q1 o1|o1]; [|reflexivity].
  rewrite bind_ret_l. reflexivity.
Qed.

(** C4.  Running [wlanframesync_execute] on [a ++ b] has the outcome of
    running it on [a] and then, on the object this leaves, on [b]: the same
    final object and the same events in the same order (or the same exit);
    and a run on a buffer is the run of the one-sample calls in order. *)
Theorem execute_app (a b : list C) (q : sync) :
  wlanframesync_execute (a ++ b) q
  = (wlanframesync_execute a ;; wlanframesync_execute b) q
  /\ wlanframesync_execute a q
     = fold_right (fun x k => wlanframesync_execute [x] ;; k) (ret tt) a q.
Proof.
  split.
  - revert q. induction a as [|x a IH]; intro q.
    + simpl. rewrite bind_ret_l. reflexivity.
    + change (wlanframesync_execute (x :: a))
        with (execute_sample x ;; wlanframesync_execute a).
      change (wlanframesync_execute ((x :: a) ++ b))
        with (execute_sample x ;; wlanframesync_execute (a ++ b)).
      rewrite bind_assoc. unfold bind at 1 2.
      destruct (execute_sample x q) as [[] q1 o1|o1]; [|reflexivity].
      rewrite IH. reflexivity.
  - revert q. induction a as [|x a IH]; intro q; [reflexivity|].
    rewrite execute_cons. cbn [fold_right].
    apply bind_ext. intros _ q'. apply IH.
Qed.

(** ** Reset *)

(** C7.  [wlanframesync_reset] returns on every object, sets every element
    of the input buffer to zero, sets the timer to 0 and the state to
    SEEKPLCP, and emits nothing: no callback is invoked. *)
Theorem reset_discards (q : sync) :
  exists q',
    wlanframesync_reset q = Done tt q' []
    /\ input_buffer q' = replicate (length (input_buffer q)) czero
    /\ timer q' = 0
    /\ state q' = WLANFRAMESYNC_STATE_SEEKPLCP.
Proof. eexists. split; [reflexivity|]. simpl. auto. Qed.

(** ** The accessors *)

(** C10.  On every object, [wlanframesync_get_rssi] and
    [wlanframesync_get_cfo] return the constant [0.0f]; in particular on the
    object that a run of [wlanframesync_execute] leaves, whatever the
    buffer. *)
Theorem accessors_constant (q : sync) (buffer : list C) :
  wlanframesync_get_rssi q = flit 0
  /\ wlanframesync_get_cfo q = flit 0
  /\ match wlanframesync_execute buffer q with
     | Done _ q' _ =>
         wlanframesync_get_rssi q' = flit 0 /\ wlanframesync_get_cfo q' = flit 0
     | Exit1 _ => True
     end.
Proof.
  repeat split. destruct (wlanframesync_execute buffer q); [split; reflexivity|exact I].
Qed.


(** ** The handler of SEEKPLCP *)

Lemma estimate_gain_S0_run (x_in : list C) (q : sync) :
  exists G,
    wlanframesync_estimate_gain_S0 x_in q
    = Done G (set_buf_X (fft_execute (take 64 x_in)) (set_buf_x (take 64 x_in) q)) []
    /\ length G = 64%nat.
Proof. eexists. split; reflexivity. Qed.

(** Before the 64th tick the handler only counts. *)
Lemma seekplcp_idle (q : sync) :
  timer q + 1 < 64 ->
  wlanframesync_execute_seekplcp q = Done tt (set_timer (timer q + 1) q) [].
Proof.
  intro H. apply Z.ltb_lt in H.
  unfold wlanframesync_execute_seekplcp.
  unfold bind at 1. unfold modify at 1. unfold bind at 1. unfold get at 1.
  cbn [timer set_timer]. rewrite H. reflexivity.
Qed.

(** On the 64th tick it restarts the timer, estimates the gain from
    [rc[16..80)], stores it in [G0a] and prints the metrics. *)
Lemma seekplcp_fire (q : sync) :
  64 <= timer q + 1 ->
  exists G,
    let x_in := drop 16 (input_buffer q) in
    let q1 := set_buf_X (fft_execute (take 64 x_in)) (set_buf_x (take 64 x_in) (set_timer 0 q)) in
    wlanframesync_estimate_gain_S0 x_in (set_timer 0 q) = Done G q1 []
    /\ wlanframesync_execute_seekplcp q
       = Done tt (set_G0a G q1)
           [ev_printf
              (fdiv (flit 64) (fadd (seekplcp_energy (input_buffer q)) (flit 1e-6)))
              (cmulf (wlanframesync_S0_metrics G)
                 (fdiv (flit 64) (fadd (seekplcp_energy (input_buffer q)) (flit 1e-6))))].
Proof.
  intro H. apply Z.ltb_ge in H.
  destruct (estimate_gain_S0_run (drop 16 (input_buffer q)) (set_timer 0 q))
    as (G & HG & _).
  exists G. split; [exact HG|].
  unfold wlanframesync_execute_seekplcp.
  unfold bind at 1. unfold modify at 1. unfold bind at 1. unfold get at 1.
  cbn [timer set_timer]. rewrite H. rewrite !emitted_nil.
  unfold bind at 1. unfold modify at 1. unfold bind at 1. unfold get at 1.
  unfold bind at 1. unfold window_read. cbn [input_buffer set_timer].
  change (set_timer 0 (set_timer (timer q + 1) q)) with (set_timer 0 q).
  rewrite HG. reflexivity.
Qed.


(** ** One sample *)

Lemma execute_sample_seekplcp (x : C) (q : sync) :
  state q = WLANFRAMESYNC_STATE_SEEKPLCP ->
  execute_sample x q = wlanframesync_execute_seekplcp (pushed x q).
Proof.
  intro H. unfold execute_sample.
  unfold bind at 1. unfold get at 1. rewrite H, Z.eqb_refl. cbn [negb].
  rewrite emitted_nil, bind_ret_l.
  repeat (unfold bind at 1; unfold modify at 1; rewrite emitted_nil).
  unfold bind at 1. unfold get at 1. rewrite emitted_nil.
  cbn [state set_debug_rssi set_debug_x set_agc_rx set_input_buffer].
  rewrite H. reflexivity.
Qed.

Lemma execute_sample_rx (x : C) (q : sync) :
  1 <= state q <= 6 ->
  execute_sample x q
  = Done tt (pushed (nco_crcf_mix_down (nco_rx q) x)
               (set_nco_rx (nco_crcf_step (nco_rx q)) q)) [].
Proof.
  intro H. unfold execute_sample.
  unfold bind at 1. unfold get at 1.
  assert (E : (state q =? WLANFRAMESYNC_STATE_SEEKPLCP) = false)
    by (apply Z.eqb_neq; unfold WLANFRAMESYNC_STATE_SEEKPLCP; lia).
  rewrite E. cbn [negb]. rewrite emitted_nil.
  rewrite bind_assoc. unfold bind at 1. unfold modify at 1. rewrite emitted_nil.
  rewrite bind_ret_l.
  repeat (unfold bind at 1; unfold modify at 1; rewrite emitted_nil).
  unfold bind at 1. unfold get at 1. rewrite emitted_nil.
  cbn [state set_debug_rssi set_debug_x set_agc_rx set_input_buffer set_nco_rx].
  assert (S : state q = 1 \/ state q = 2 \/ state q = 3 \/ state q = 4
              \/ state q = 5 \/ state q = 6) by lia.
  destruct S as [S|[S|[S|[S|[S|S]]]]]; rewrite S; reflexivity.
Qed.

Lemma execute_sample_invalid (x : C) (q : sync) :
  ~ 0 <= state q <= 6 -> execute_sample x q = Exit1 [].
Proof.
  intro H. unfold execute_sample.
  unfold bind at 1. unfold get at 1.
  assert (E : (state q =? WLANFRAMESYNC_STATE_SEEKPLCP) = false)
    by (apply Z.eqb_neq; unfold WLANFRAMESYNC_STATE_SEEKPLCP; lia).
  rewrite E. cbn [negb]. rewrite emitted_nil.
  rewrite bind_assoc. unfold bind at 1. unfold modify at 1. rewrite emitted_nil.
  rewrite bind_ret_l.
  repeat (unfold bind at 1; unfold modify at 1; rewrite emitted_nil).
  unfold bind at 1. unfold get at 1. rewrite emitted_nil.
  cbn [state set_debug_rssi set_debug_x set_agc_rx set_input_buffer set_nco_rx].
  destruct (state q) as [|p|p]; [lia| |reflexivity].
  destruct p as [[[p|p|]|[p|p|]|]|[[p|p|]|[p|p|]|]|]; try reflexivity; lia.
Qed.


Lemma execute_single (x : C) (q : sync) :
  wlanframesync_execute [x] q
  = match execute_sample x q with
    | Done _ q' out => Done tt q' out
    | Exit1 out => Exit1 out
    end.
Proof.
  change (wlanframesync_execute [x]) with (execute_sample x ;; ret tt).
  unfold bind, ret. destruct (execute_sample x q) as [[] q' out|out]; [|reflexivity].
  simpl. rewrite app_nil_r. reflexivity.
Qed.

(** The fatal branch of the [switch] is taken exactly on a state value
    outside the enumeration. *)
Lemma fatal_iff_invalid_state (x : C) (q : sync) :
  (exists out, execute_sample x q = Exit1 out) <-> ~ 0 <= state q <= 6.
Proof.
  split.
  - intros [out H] V.
    assert (S : state q = WLANFRAMESYNC_STATE_SEEKPLCP \/ 1 <= state q <= 6)
      by (unfold WLANFRAMESYNC_STATE_SEEKPLCP; lia).
    destruct S as [S|S].
    + rewrite (execute_sample_seekplcp x q S) in H.
      destruct (Z_lt_ge_dec (timer (pushed x q) + 1) 64) as [L|G].
      * rewrite (seekplcp_idle _ L) in H. discriminate.
      * destruct (seekplcp_fire (pushed x q)) as (G0 & _ & R); [lia|].
        rewrite R in H. discriminate.
    + rewrite (execute_sample_rx x q S) in H. discriminate.
  - intro H. exists []. apply execute_sample_invalid, H.
Qed.

(** ** SEEKPLCP is never left *)

Lemma sample_in_seekplcp (x : C) (q : sync) :
  state q = WLANFRAMESYNC_STATE_SEEKPLCP ->
  exists q' out,
    execute_sample x q = Done tt q' out
    /\ state q' = WLANFRAMESYNC_STATE_SEEKPLCP
    /\ nco_rx q' = nco_rx q
    /\ input_buffer q' = window_push (input_buffer q) x
    /\ existsb is_callback out = false
    /\ (timer q + 1 < 64 /\ timer q' = timer q + 1
        \/ 64 <= timer q + 1 /\ timer q' = 0).
Proof.
  intro H. rewrite (execute_sample_seekplcp x q H).
  destruct (Z_lt_ge_dec (timer (pushed x q) + 1) 64) as [L|G].
  - rewrite (seekplcp_idle _ L). do 2 eexists. split; [reflexivity|].
    cbn in *. auto 10.
  - destruct (seekplcp_fire (pushed x q)) as (G0 & _ & R); [lia|].
    rewrite R. do 2 eexists. split; [reflexivity|].
    cbn in *. repeat split; auto. right. split; [lia|reflexivity].
Qed.

(** C1, as the code has it.  From state SEEKPLCP, [wlanframesync_execute]
    returns on every buffer with the state still SEEKPLCP, with the NCO
    (phase and frequency) as it was, and without a callback: the handler
    has no detection branch, whatever the metrics are. *)
Theorem seekplcp_stays (buffer : list C) (q : sync) :
  state q = WLANFRAMESYNC_STATE_SEEKPLCP ->
  exists q' out,
    wlanframesync_execute buffer q = Done tt q' out
    /\ state q' = WLANFRAMESYNC_STATE_SEEKPLCP
    /\ nco_rx q' = nco_rx q
    /\ existsb is_callback out = false.
Proof.
  revert q. induction buffer as [|x buffer IH]; intros q H.
  - exists q, []. repeat split; auto.
  - change (wlanframesync_execute (x :: buffer))
      with (execute_sample x ;; wlanframesync_execute buffer).
    destruct (sample_in_seekplcp x q H) as (q1 & o1 & R1 & S1 & N1 & _ & K1 & _).
    destruct (IH q1 S1) as (q2 & o2 & R2 & S2 & N2 & K2).
    exists q2, (o1 ++ o2). unfold bind. rewrite R1, R2. simpl.
    rewrite existsb_app, K1, K2. repeat split; congruence.
Qed.

(** ** Mixing *)

(** C5.  One sample [x] in a state of the enumeration: in SEEKPLCP the
    sample pushed into the input buffer is [x] itself and the NCO is not
    stepped; in every other state the sample pushed is [x] mixed down by the
    NCO and the NCO is stepped once. *)
Theorem mix_down_iff_not_seekplcp (x : C) (q : sync) :
  0 <= state q <= 6 ->
  exists q' out,
    wlanframesync_execute [x] q = Done tt q' out
    /\ input_buffer q'
       = window_push (input_buffer q)
           (if state q =? WLANFRAMESYNC_STATE_SEEKPLCP then x
            else nco_crcf_mix_down (nco_rx q) x)
    /\ nco_rx q'
       = (if state q =? WLANFRAMESYNC_STATE_SEEKPLCP then nco_rx q
          else nco_crcf_step (nco_rx q)).
Proof.
  intro V. rewrite execute_single.
  assert (S : state q = WLANFRAMESYNC_STATE_SEEKPLCP \/ 1 <= state q <= 6)
    by (unfold WLANFRAMESYNC_STATE_SEEKPLCP; lia).
  destruct S as [S|S].
  - destruct (sample_in_seekplcp x q S) as (q1 & o1 & R1 & _ & N1 & B1 & _).
    rewrite R1, S, Z.eqb_refl. eauto.
  - rewrite (execute_sample_rx x q S).
    assert (E : (state q =? WLANFRAMESYNC_STATE_SEEKPLCP) = false)
      by (apply Z.eqb_neq; unfold WLANFRAMESYNC_STATE_SEEKPLCP; lia).
    rewrite E. do 2 eexists. split; [reflexivity|]. split; reflexivity.
Qed.

(** ** Reset and the NCO *)

(** No run of [wlanframesync_execute] changes the state: the only
    assignment to the field is the one in [wlanframesync_reset]. *)
Lemma execute_keeps_state (buffer : list C) (q q' : sync) (out : list (event F C)) :
  wlanframesync_execute buffer q = Done tt q' out -> state q' = state q.
Proof.
  revert q out. induction buffer as [|x buffer IH]; intros q out H.
  - inversion H. reflexivity.
  - change (wlanframesync_execute (x :: buffer))
      with (execute_sample x ;; wlanframesync_execute buffer) in H.
    unfold bind in H.
    assert (S : state q = WLANFRAMESYNC_STATE_SEEKPLCP \/ 1 <= state q <= 6
                \/ ~ 0 <= state q <= 6)
      by (unfold WLANFRAMESYNC_STATE_SEEKPLCP; lia).
    destruct S as [S|[S|S]].
    + destruct (sample_in_seekplcp x q S) as (q1 & o1 & R1 & S1 & _).
      rewrite R1 in H. destruct (wlanframesync_execute buffer q1) eqn:R2; [|discriminate].
      destruct a. inversion H; subst. rewrite (IH _ _ R2). congruence.
    + rewrite (execute_sample_rx x q S) in H.
      destruct (wlanframesync_execute buffer _) eqn:R2; [|discriminate].
      destruct a. inversion H; subst. rewrite (IH _ _ R2). reflexivity.
    + rewrite (execute_sample_invalid x q S) in H. discriminate.
Qed.

(** [wlanframesync_reset] puts the object in SEEKPLCP and does not write
    the NCO: its phase and frequency are what they were. *)
Lemma reset_keeps_nco (q : sync) :
  exists q',
    wlanframesync_reset q = Done tt q' []
    /\ state q' = WLANFRAMESYNC_STATE_SEEKPLCP
    /\ theta (nco_rx q') = theta (nco_rx q)
    /\ d_theta (nco_rx q') = d_theta (nco_rx q).
Proof. eexists. split; [reflexivity|]. simpl. auto. Qed.

(** ** Reachable objects *)

Lemma window_push_length {A} (w : list A) (v : A) :
  (0 < length w)%nat -> length (window_push w v) = length w.
Proof.
  intro H. unfold window_push. rewrite length_app, length_drop. simpl. lia.
Qed.

Lemma sample_keeps_inv (x : C) (q : sync) :
  state q = WLANFRAMESYNC_STATE_SEEKPLCP /\ 0 <= timer q < 64
  /\ nco_rx q = nco_crcf_create /\ length (input_buffer q) = 80%nat ->
  exists q' out,
    execute_sample x q = Done tt q' out
    /\ state q' = WLANFRAMESYNC_STATE_SEEKPLCP /\ 0 <= timer q' < 64
    /\ nco_rx q' = nco_crcf_create /\ length (input_buffer q') = 80%nat.
Proof.
  intros (S & T & N & L).
  destruct (sample_in_seekplcp x q S) as (q1 & o1 & R1 & S1 & N1 & B1 & _ & T1).
  exists q1, o1. repeat split; try congruence; try lia.
  rewrite B1, window_push_length; lia.
Qed.

Lemma execute_keeps_inv (buffer : list C) (q : sync) :
  state q = WLANFRAMESYNC_STATE_SEEKPLCP /\ 0 <= timer q < 64
  /\ nco_rx q = nco_crcf_create /\ length (input_buffer q) = 80%nat ->
  exists q' out,
    wlanframesync_execute buffer q = Done tt q' out
    /\ state q' = WLANFRAMESYNC_STATE_SEEKPLCP /\ 0 <= timer q' < 64
    /\ nco_rx q' = nco_crcf_create /\ length (input_buffer q') = 80%nat.
Proof.
  revert q. induction buffer as [|x buffer IH]; intros q I.
  - exists q, []. split; [reflexivity|exact I].
  - change (wlanframesync_execute (x :: buffer))
      with (execute_sample x ;; wlanframesync_execute buffer).
    destruct (sample_keeps_inv x q I) as (q1 & o1 & R1 & I1).
    destruct (IH q1 I1) as (q2 & o2 & R2 & I2).
    exists q2, (o1 ++ o2). unfold bind. rewrite R1, R2. split; [reflexivity|exact I2].
Qed.

(** Every reachable object is in SEEKPLCP with the timer in [0, 64), the NCO
    as created and an input buffer of 80 samples. *)
Lemma reachable_inv (q : sync) :
  reachable q ->
  state q = WLANFRAMESYNC_STATE_SEEKPLCP /\ 0 <= timer q < 64
  /\ nco_rx q = nco_crcf_create /\ length (input_buffer q) = 80%nat.
Proof.
  induction 1 as [mem q out H|q q' out _ IH H|buffer q q' out _ IH H].
  - inversion H; subst. cbn. repeat split; lia.
  - inversion H; subst. destruct IH as (S & T & N & L). cbn.
    unfold window_clear. rewrite length_replicate. repeat split; auto; lia.
  - destruct (execute_keeps_inv buffer q IH) as (q2 & o2 & R2 & I2).
    rewrite R2 in H. inversion H; subst. exact I2.
Qed.

(** C8.  On a reachable object the state is one of the seven values of the
    enumeration and [wlanframesync_execute] returns, on every buffer, with a
    reachable object: the run never ends in the invalid-state exit. *)
Theorem dispatch_never_fatal (buffer : list C) (q : sync) :
  reachable q ->
  0 <= state q <= 6
  /\ exists q' out,
       wlanframesync_execute buffer q = Done tt q' out /\ reachable q'.
Proof.
  intro R. pose proof (reachable_inv q R) as I.
  split; [destruct I as (S & _); rewrite S; unfold WLANFRAMESYNC_STATE_SEEKPLCP; lia|].
  destruct (execute_keeps_inv buffer q I) as (q2 & o2 & R2 & _).
  exists q2, o2. split; [exact R2|]. eapply reach_execute; eassumption.
Qed.

(** C6.  The state is set to SEEKPLCP in [wlanframesync_reset] only, and
    on every reachable object a reset returns with the object in SEEKPLCP
    and the NCO at phase zero and frequency zero, provided the NCO comes
    out of [nco_crcf_create] with phase and frequency zero (as liquid-dsp
    creates it).  The reset does not write the NCO: a reachable object has
    never left SEEKPLCP, so its NCO has never been stepped and is at zero
    before the reset as well; the object after the reset is reachable
    again. *)
Theorem reset_nco_zero (q : sync) :
  reachable q ->
  theta nco_crcf_create = flit 0 ->
  d_theta nco_crcf_create = flit 0 ->
  (theta (nco_rx q) = flit 0 /\ d_theta (nco_rx q) = flit 0)
  /\ exists q',
       wlanframesync_reset q = Done tt q' []
       /\ state q' = WLANFRAMESYNC_STATE_SEEKPLCP
       /\ theta (nco_rx q') = flit 0
       /\ d_theta (nco_rx q') = flit 0
       /\ reachable q'.
Proof.
  intros R Ht Hd.
  destruct (reachable_inv q R) as (_ & _ & N & _).
  split; [rewrite N; split; assumption|].
  destruct (reset_keeps_nco q) as (q' & Rr & S & T & D).
  exists q'. rewrite T, D, N.
  repeat split; try assumption.
  eapply reach_reset; eassumption.
Qed.


(** ** The gain estimate of the short sequence *)

(** The literal of the source is sqrt(12)/64 rounded to six decimals. *)
Lemma S0_gain_is_sqrt12_over_64 :
  ((S0_gain - 0.0000005) * (S0_gain - 0.0000005) < 12 # 4096
   /\ 12 # 4096 < (S0_gain + 0.0000005) * (S0_gain + 0.0000005))%Q.
Proof. split; reflexivity. Qed.

Lemma estimate_gain_S0_spec (x_in : list C) (q : sync) :
  exists G,
    wlanframesync_estimate_gain_S0 x_in q
    = Done G (set_buf_X (fft_execute (take 64 x_in)) (set_buf_x (take 64 x_in) q)) []
    /\ length G = 64%nat
    /\ forall k : nat,
         G !!! k
         = if existsb (Nat.eqb k) S0_bins
           then cmulf (cmul (fft_execute (take 64 x_in) !!! k)
                            (conjf (wlanframe_S0 !!! k))) (flit S0_gain)
           else czero.
Proof.
  eexists. split; [reflexivity|]. split; [reflexivity|].
  intro k. do 64 (destruct k as [|k]; [reflexivity|]). reflexivity.
Qed.

(** C3.  On the tick that fires (the 64th), [wlanframesync_execute_seekplcp]
    copies the 64 samples at positions [16..80) of the input buffer into the
    transform input, runs the 64-point transform, and leaves in [G0a] an
    array of 64 entries: at each of the 12 bins of [S0_bins] the transform
    output times the conjugate of [wlanframe_S0] times the gain literal
    (sqrt(12)/64 to six decimals), and zero at every other bin. *)
Theorem gain_estimate_S0 (q : sync) :
  64 <= timer q + 1 ->
  exists q' out,
    wlanframesync_execute_seekplcp q = Done tt q' out
    /\ buf_x q' = take 64 (drop 16 (input_buffer q))
    /\ buf_X q' = fft_execute (buf_x q')
    /\ length (G0a q') = 64%nat
    /\ (forall k : nat,
          G0a q' !!! k
          = if existsb (Nat.eqb k) S0_bins
            then cmulf (cmul (buf_X q' !!! k) (conjf (wlanframe_S0 !!! k)))
                       (flit S0_gain)
            else czero)
    /\ ((S0_gain - 0.0000005) * (S0_gain - 0.0000005) < 12 # 4096
        /\ 12 # 4096 < (S0_gain + 0.0000005) * (S0_gain + 0.0000005))%Q.
Proof.
  intro H.
  destruct (seekplcp_fire q H) as (G & RG & R).
  destruct (estimate_gain_S0_spec (drop 16 (input_buffer q)) (set_timer 0 q))
    as (G' & RG' & L & B).
  cbv zeta in RG, R. rewrite RG in RG'. injection RG' as <-.
  do 2 eexists. split; [exact R|]. cbn.
  repeat split; auto; apply S0_gain_is_sqrt12_over_64.
Qed.

(** ** The timing metric of the short sequence *)

(** C2, as the code has it.  [wlanframesync_S0_metrics] returns 0.1 times
    the sum, in program order, of the ten products G[k+4]*conj(G[k]) for k
    in 40, 44, 48, 52, 56 and 4, 8, 12, 16, 20: the neighbours inside each
    cluster and no product across the two clusters. *)
Theorem S0_metrics_ten_products (G : list C) :
  wlanframesync_S0_metrics G
  = cmulf (fold_left (fun s p => cadd s (cmul (G !!! fst p) (conjf (G !!! snd p))))
                     S0_metric_pairs czero)
          (flit 0.1)
  /\ S0_metric_pairs
     = map (fun k => ((k + 4)%nat, k)) [40; 44; 48; 52; 56; 4; 8; 12; 16; 20]%nat
  /\ length S0_metric_pairs = 10%nat.
Proof. repeat split. Qed.

(** ** Table G.3 *)

Lemma annexg_G3_length : length (annexg_G3 (C := C)) = 64%nat.
Proof. reflexivity. Qed.

(** C9.  Entry [i] of [annexg_G3] equals entry [i + 16], for every [i]
    below 48: the table repeats with period 16. *)
Theorem annexg_G3_period_16 (i : nat) :
  (i < 48)%nat ->
  exists c : C, annexg_G3 !! i = Some c /\ annexg_G3 !! (i + 16)%nat = Some c.
Proof.
  intro H.
  do 48 (destruct i as [|i]; [eexists; split; reflexivity|]). lia.
Qed.

End Properties.

(** * Concrete runs on the reference provider *)

(** C9 at entry 5 of the table in binary32. *)
Lemma annexg_G3_period_16_witness :
  (5 < 48)%nat
  /\ exists c : Ref.C32,
       annexg_G3 !! 5%nat = Some c /\ annexg_G3 !! (5 + 16)%nat = Some c.
Proof. split; [lia|apply (annexg_G3_period_16 5); lia]. Defined.

(** C1 as stated fails on the training sequence itself.  The created object
    is fed the 64 samples of Table G.3; on the 64th the handler prints
    g = 78.73 and s_hat = 4.327 + 0.00000002i, computed from an energy of
    0.8129.  The criterion of the design document holds for the threshold
    0.3 and a floor of 0.5, and the object is still in SEEKPLCP, not in
    RXSHORT0, with the NCO as created. *)
Lemma detection_without_transition :
  exists q',
    wlanframesync_execute annexg_G3 Ref.created
    = Done tt q'
        [ev_printf (S754_finite false 10319805 (-17))
           (Ref.Build_C32 (S754_finite false 9074841 (-21))
                          (S754_finite false 13669850 (-49)))]
    /\ seekplcp_energy (input_buffer q') = S754_finite false 13637594 (-24)
    /\ Ref.detection_criterion (flit 0.3) (flit 0.5)
         (Ref.Build_C32 (S754_finite false 9074841 (-21))
                        (S754_finite false 13669850 (-49)))
         (seekplcp_energy (input_buffer q')) = true
    /\ state q' = WLANFRAMESYNC_STATE_SEEKPLCP
    /\ state q' <> WLANFRAMESYNC_STATE_RXSHORT0
    /\ nco_rx q' = nco_rx Ref.created.
Proof.
  exists (match wlanframesync_execute annexg_G3 Ref.created with
          | Done _ q _ => q
          | Exit1 _ => Ref.created
          end).
  vm_compute. repeat split; discriminate.
Qed.

(** C1 on the same run. *)
Lemma seekplcp_stays_witness :
  state Ref.created = WLANFRAMESYNC_STATE_SEEKPLCP
  /\ exists q' out,
       wlanframesync_execute annexg_G3 Ref.created = Done tt q' out
       /\ state q' = WLANFRAMESYNC_STATE_SEEKPLCP
       /\ nco_rx q' = nco_rx Ref.created
       /\ existsb is_callback out = false.
Proof.
  split; [reflexivity|apply (seekplcp_stays annexg_G3 Ref.created); reflexivity].
Defined.

(** C2 as stated fails on the array [Ref.G_cross], which is 1 at the bins 4,
    8, 24 and 40 and 0 elsewhere: the source returns 0.1 (one product inside
    a cluster, scaled), the 12-term sum that wraps from 24 to 40 is 2, and
    the 12-term sum with the index taken modulo 64 is 1. *)
Lemma S0_metrics_is_not_the_12_term_sum :
  wlanframesync_S0_metrics Ref.G_cross = cmplx (flit 0.1) (flit 0)
  /\ S0_metric_12_wrapped Ref.G_cross = cmplx (flit 2) (flit 0)
  /\ S0_metric_12_mod64 Ref.G_cross = cmplx (flit 1) (flit 0)
  /\ wlanframesync_S0_metrics Ref.G_cross <> S0_metric_12_wrapped Ref.G_cross
  /\ wlanframesync_S0_metrics Ref.G_cross <> S0_metric_12_mod64 Ref.G_cross.
Proof. vm_compute. repeat split; discriminate. Qed.

(** C3 on the created object with the timer at 63. *)
Lemma gain_estimate_S0_witness :
  64 <= timer (set_timer 63 Ref.created) + 1
  /\ exists q' out,
       wlanframesync_execute_seekplcp (set_timer 63 Ref.created) = Done tt q' out
       /\ buf_x q' = take 64 (drop 16 (input_buffer (set_timer 63 Ref.created)))
       /\ buf_X q' = fft_execute (buf_x q')
       /\ length (G0a q') = 64%nat
       /\ (forall k : nat,
             G0a q' !!! k
             = if existsb (Nat.eqb k) S0_bins
               then cmulf (cmul (buf_X q' !!! k) (conjf (wlanframe_S0 !!! k)))
                          (flit S0_gain)
               else czero)
       /\ ((S0_gain - 0.0000005) * (S0_gain - 0.0000005) < 12 # 4096
           /\ 12 # 4096 < (S0_gain + 0.0000005) * (S0_gain + 0.0000005))%Q.
Proof.
  split; [vm_compute; discriminate|].
  apply (gain_estimate_S0 (set_timer 63 Ref.created)). vm_compute; discriminate.
Defined.

(** C5 on an object in RXSHORT0 and on the sample 0.5 + 0.25i. *)
Lemma mix_down_iff_not_seekplcp_witness :
  0 <= state Ref.in_rxshort0 <= 6
  /\ exists q' out,
       wlanframesync_execute [cmplx (flit 0.5) (flit 0.25)] Ref.in_rxshort0
       = Done tt q' out
       /\ input_buffer q'
          = window_push (input_buffer Ref.in_rxshort0)
              (if state Ref.in_rxshort0 =? WLANFRAMESYNC_STATE_SEEKPLCP
               then cmplx (flit 0.5) (flit 0.25)
               else nco_crcf_mix_down (nco_rx Ref.in_rxshort0)
                      (cmplx (flit 0.5) (flit 0.25)))
       /\ nco_rx q'
          = (if state Ref.in_rxshort0 =? WLANFRAMESYNC_STATE_SEEKPLCP
             then nco_rx Ref.in_rxshort0
             else nco_crcf_step (nco_rx Ref.in_rxshort0)).
Proof.
  split; [vm_compute; split; discriminate|].
  apply (mix_down_iff_not_seekplcp (cmplx (flit 0.5) (flit 0.25)) Ref.in_rxshort0).
  vm_compute; split; discriminate.
Defined.


Lemma created_reachable : reachable Ref.created.
Proof. apply (reach_create Ref.fresh Ref.created []). reflexivity. Defined.

(** C8 on the created object and the 64 samples of Table G.3. *)
Lemma dispatch_never_fatal_witness :
  reachable Ref.created
  /\ 0 <= state Ref.created <= 6
  /\ exists q' out,
       wlanframesync_execute annexg_G3 Ref.created = Done tt q' out
       /\ reachable q'.
Proof.
  split; [exact created_reachable|].
  apply (dispatch_never_fatal annexg_G3 Ref.created), created_reachable.
Defined.

(** C6 on the created object of the reference provider, whose NCO is
    created with phase 0 and frequency 0. *)
Lemma reset_nco_zero_witness :
  reachable Ref.created
  /\ theta (nco_crcf_create (F := Ref.F32)) = flit 0
  /\ d_theta (nco_crcf_create (F := Ref.F32)) = flit 0
  /\ (theta (nco_rx Ref.created) = flit 0 /\ d_theta (nco_rx Ref.created) = flit 0)
  /\ exists q',
       wlanframesync_reset Ref.created = Done tt q' []
       /\ state q' = WLANFRAMESYNC_STATE_SEEKPLCP
       /\ theta (nco_rx q') = flit 0
       /\ d_theta (nco_rx q') = flit 0
       /\ reachable q'.
Proof.
  split; [exact created_reachable|].
  split; [reflexivity|]. split; [reflexivity|].
  apply (reset_nco_zero Ref.created); [exact created_reachable|reflexivity|reflexivity].
Defined.

(** * Streams of samples *)

(** Reduce the projections of an updated object, and nothing else. *)
Ltac fields :=
  cbn [buf_X buf_x input_buffer nco_rx G0a state timer agc_rx debug_x debug_rssi
       set_buf_X set_buf_x set_input_buffer set_nco_rx set_G0a set_state
       set_timer set_agc_rx set_debug_x set_debug_rssi] in *.

Section Streaming.
Context {F C AGC : Type}.
Context {FO : FloatOps F C} {CO : Collaborators F C AGC} {TB : PLCPTables C}.
#[local] Existing Instance C_inhabited.

Abbreviation sync := (wlanframesync_s F C AGC).

(** ** Windows *)

Lemma window_push_all {A} (l w : list A) :
  (0 < length w)%nat ->
  fold_left window_push l w = drop (length l) (w ++ l).
Proof.
  revert w. induction l as [|a l IH]; intros w H; simpl.
  - rewrite app_nil_r. reflexivity.
  - rewrite IH by (rewrite window_push_length; lia).
    unfold window_push. destruct w as [|w0 w]; [simpl in H; lia|].
    simpl. rewrite <- app_assoc. reflexivity.
Qed.

Lemma window_push_all_length {A} (l w : list A) :
  (0 < length w)%nat -> length (fold_left window_push l w) = length w.
Proof.
  revert w. induction l as [|a l IH]; intros w H; simpl; [reflexivity|].
  rewrite IH; rewrite window_push_length; lia.
Qed.

(** ** One sample in SEEKPLCP *)

Lemma sample_idle (x : C) (q : sync) :
  state q = WLANFRAMESYNC_STATE_SEEKPLCP ->
  timer q + 1 < 64 ->
  execute_sample x q = Done tt (set_timer (timer q + 1) (pushed x q)) [].
Proof.
  intros S T. rewrite (execute_sample_seekplcp x q S).
  exact (seekplcp_idle (pushed x q) T).
Qed.

Lemma sample_fire (x : C) (q : sync) :
  state q = WLANFRAMESYNC_STATE_SEEKPLCP ->
  64 <= timer q + 1 ->
  exists G,
    let rc := window_push (input_buffer q) x in
    let x_in := take 64 (drop 16 rc) in
    let g := fdiv (flit 64) (fadd (seekplcp_energy rc) (flit 1e-6)) in
    execute_sample x q
    = Done tt (set_G0a G (set_buf_X (fft_execute x_in)
                            (set_buf_x x_in (set_timer 0 (pushed x q)))))
        [ev_printf g (cmulf (wlanframesync_S0_metrics G) g)]
    /\ forall k : nat,
         G !!! k
         = if existsb (Nat.eqb k) S0_bins
           then cmulf (cmul (fft_execute x_in !!! k) (conjf (wlanframe_S0 !!! k)))
                      (flit S0_gain)
           else czero.
Proof.
  intros S T. rewrite (execute_sample_seekplcp x q S).
  destruct (seekplcp_fire (pushed x q) T) as (G & RG & R).
  destruct (estimate_gain_S0_spec (drop 16 (input_buffer (pushed x q)))
              (set_timer 0 (pushed x q))) as (G' & RG' & _ & B).
  cbv zeta in RG, R. rewrite RG in RG'. injection RG' as <-.
  exists G. cbv zeta. split; [exact R|exact B].
Qed.

(** What one sample in SEEKPLCP does to the fields outside the handler's
    reach. *)
Lemma sample_seek_fields (x : C) (q : sync) :
  state q = WLANFRAMESYNC_STATE_SEEKPLCP ->
  exists q' out,
    execute_sample x q = Done tt q' out
    /\ state q' = WLANFRAMESYNC_STATE_SEEKPLCP
    /\ nco_rx q' = nco_rx q
    /\ input_buffer q' = window_push (input_buffer q) x
    /\ debug_x q' = window_push (debug_x q) x
    /\ agc_rx q' = agc_crcf_execute (agc_rx q) x
    /\ debug_rssi q'
       = window_push (debug_rssi q) (agc_crcf_get_rssi (agc_crcf_execute (agc_rx q) x)).
Proof.
  intro S. destruct (Z_lt_ge_dec (timer q + 1) 64) as [T|T].
  - rewrite (sample_idle x q S T). do 2 eexists. split; [reflexivity|].
    cbn. auto 10.
  - destruct (sample_fire x q S) as (G & R & _); [lia|]. cbv zeta in R.
    rewrite R. do 2 eexists. split; [reflexivity|]. cbn. auto 10.
Qed.

Lemma execute_cons_run (x : C) (rest : list C) (q q1 : sync) (o1 : list (event F C)) :
  execute_sample x q = Done tt q1 o1 ->
  wlanframesync_execute (x :: rest) q = emitted o1 (wlanframesync_execute rest q1).
Proof.
  intro R.
  change (wlanframesync_execute (x :: rest))
    with (execute_sample x ;; wlanframesync_execute rest).
  unfold bind. rewrite R. reflexivity.
Qed.

End Streaming.

Section Seeking.
Context {F C AGC : Type}.
Context {FO : FloatOps F C} {CO : Collaborators F C AGC} {TB : PLCPTables C}.
#[local] Existing Instance C_inhabited.

Abbreviation sync := (wlanframesync_s F C AGC).

(** ** Runs in SEEKPLCP *)

Lemma seek_run_windows (buffer : list C) (q : sync) :
  state q = WLANFRAMESYNC_STATE_SEEKPLCP ->
  exists q' out,
    wlanframesync_execute buffer q = Done tt q' out
    /\ input_buffer q' = fold_left window_push buffer (input_buffer q)
    /\ debug_x q' = fold_left window_push buffer (debug_x q)
    /\ ((0 < length (debug_rssi q))%nat ->
        length (debug_rssi q') = length (debug_rssi q))
    /\ nco_rx q' = nco_rx q.
Proof.
  revert q. induction buffer as [|x rest IH]; intros q S.
  - exists q, []. repeat split.
  - destruct (sample_seek_fields x q S)
      as (q1 & o1 & R1 & S1 & N1 & I1 & D1 & _ & B1).
    destruct (IH q1 S1) as (q2 & o2 & R2 & I2 & D2 & B2 & N2).
    exists q2, (o1 ++ o2). rewrite (execute_cons_run x rest q q1 o1 R1), R2.
    simpl. rewrite <- I1, <- D1. repeat split; try congruence.
    intro H. rewrite B2; rewrite B1, window_push_length; lia.
Qed.

(** X3.  In SEEKPLCP the samples reach the input buffer and the debugging
    window as they are, and the windows slide: after a run on [buffer] each
    of the two holds the last elements of its former content followed by
    [buffer]; the NCO is as before. *)
Theorem seekplcp_buffers_raw_samples (buffer : list C) (q : sync) :
  state q = WLANFRAMESYNC_STATE_SEEKPLCP ->
  (0 < length (input_buffer q))%nat ->
  (0 < length (debug_x q))%nat ->
  exists q' out,
    wlanframesync_execute buffer q = Done tt q' out
    /\ input_buffer q' = drop (length buffer) (input_buffer q ++ buffer)
    /\ debug_x q' = drop (length buffer) (debug_x q ++ buffer)
    /\ length (input_buffer q') = length (input_buffer q)
    /\ nco_rx q' = nco_rx q.
Proof.
  intros S HI HD.
  destruct (seek_run_windows buffer q S) as (q' & out & R & I & D & _ & N).
  exists q', out.
  rewrite I, D, window_push_all_length by exact HI.
  rewrite !window_push_all by assumption. repeat split; assumption.
Qed.

(** X2.  In SEEKPLCP with the timer in [0, 64), a run on [n] samples
    prints the metrics once per 64 samples counted by the timer:
    (timer + n) / 64 lines, no callback, and the timer ends at
    (timer + n) mod 64. *)
Theorem metrics_once_per_64_samples (buffer : list C) (q : sync) :
  state q = WLANFRAMESYNC_STATE_SEEKPLCP ->
  0 <= timer q < 64 ->
  exists q' out,
    wlanframesync_execute buffer q = Done tt q' out
    /\ timer q' = (timer q + Z.of_nat (length buffer)) mod 64
    /\ Z.of_nat (length out) = (timer q + Z.of_nat (length buffer)) / 64
    /\ existsb is_callback out = false.
Proof.
  revert q. induction buffer as [|x rest IH]; intros q S T.
  - exists q, []. simpl. rewrite Z.add_0_r, Z.mod_small, Z.div_small by lia.
    repeat split.
  - destruct (Z_lt_ge_dec (timer q + 1) 64) as [L|G].
    + pose proof (sample_idle x q S L) as R1.
      destruct (IH (set_timer (timer q + 1) (pushed x q))) as (q2 & o2 & R2 & T2 & N2 & K2);
        [exact S|fields; lia|].
      exists q2, o2. rewrite (execute_cons_run _ _ _ _ _ R1), R2.
      cbn [emitted app timer set_timer] in *.
      replace (timer q + Z.of_nat (length (x :: rest)))
        with (timer q + 1 + Z.of_nat (length rest)) by (simpl length; lia).
      repeat split; assumption.
    + destruct (sample_fire x q S) as (G0 & R1 & _); [lia|]. cbv zeta in R1.
      match type of R1 with _ = Done tt ?q1 _ =>
        destruct (IH q1) as (q2 & o2 & R2 & T2 & N2 & K2); [exact S|fields; lia|]
      end.
      do 2 eexists. rewrite (execute_cons_run _ _ _ _ _ R1), R2.
      cbn [emitted app timer set_timer set_G0a set_buf_X set_buf_x] in *.
      split; [reflexivity|].
      assert (E : timer q = 63) by lia.
      replace (timer q + Z.of_nat (length (x :: rest)))
        with (Z.of_nat (length rest) + 1 * 64) by (simpl length; lia).
      rewrite Z.mod_add, Z.div_add by lia.
      rewrite Z.add_0_l in T2, N2.
      repeat split; [exact T2|simpl length; lia|exact K2].
Qed.

(** X5.  In SEEKPLCP, while the timer stays below 64 nothing is computed:
    a run on [n] samples with timer + n < 64 prints nothing and leaves the
    gain estimate and the two transform buffers as they were; the timer has
    advanced by [n]. *)
Theorem silent_before_the_64th_sample (buffer : list C) (q : sync) :
  state q = WLANFRAMESYNC_STATE_SEEKPLCP ->
  timer q + Z.of_nat (length buffer) < 64 ->
  exists q',
    wlanframesync_execute buffer q = Done tt q' []
    /\ timer q' = timer q + Z.of_nat (length buffer)
    /\ G0a q' = G0a q /\ buf_x q' = buf_x q /\ buf_X q' = buf_X q.
Proof.
  revert q. induction buffer as [|x rest IH]; intros q S T.
  - exists q. simpl. rewrite Z.add_0_r. repeat split.
  - simpl length in T.
    assert (L : timer q + 1 < 64) by lia.
    pose proof (sample_idle x q S L) as R1.
    destruct (IH (set_timer (timer q + 1) (pushed x q))) as (q2 & R2 & T2 & G2 & X2 & Y2);
      [exact S|fields; lia|].
    exists q2. rewrite (execute_cons_run _ _ _ _ _ R1), R2.
    unfold pushed in *. fields. cbn [emitted app].
    repeat split; try assumption. simpl length. lia.
Qed.

Lemma fire_at_end (buffer : list C) (q : sync) :
  state q = WLANFRAMESYNC_STATE_SEEKPLCP ->
  (0 < length buffer)%nat ->
  timer q + Z.of_nat (length buffer) = 64 ->
  exists q',
    let rc := fold_left window_push buffer (input_buffer q) in
    let g := fdiv (flit 64) (fadd (seekplcp_energy rc) (flit 1e-6)) in
    wlanframesync_execute buffer q
    = Done tt q' [ev_printf g (cmulf (wlanframesync_S0_metrics (G0a q')) g)]
    /\ input_buffer q' = rc
    /\ buf_x q' = take 64 (drop 16 rc)
    /\ buf_X q' = fft_execute (take 64 (drop 16 rc))
    /\ timer q' = 0
    /\ forall k : nat,
         G0a q' !!! k
         = if existsb (Nat.eqb k) S0_bins
           then cmulf (cmul (fft_execute (take 64 (drop 16 rc)) !!! k)
                            (conjf (wlanframe_S0 !!! k))) (flit S0_gain)
           else czero.
Proof.
  revert q. induction buffer as [|x rest IH]; intros q S N T; [simpl in N; lia|].
  destruct rest as [|y rest].
  - destruct (sample_fire x q S) as (G & R1 & B); [simpl length in T; lia|].
    cbv zeta in R1, B.
    change (fold_left window_push [x] (input_buffer q))
      with (window_push (input_buffer q) x).
    set (rc := window_push (input_buffer q) x) in *.
    set (g := fdiv (flit 64) (fadd (seekplcp_energy rc) (flit 1e-6))) in *.
    match type of R1 with _ = Done tt ?q1 _ => exists q1 end. cbv zeta.
    rewrite (execute_cons_run _ _ _ _ _ R1).
    unfold pushed. fields.
    split; [reflexivity|]. repeat split; auto.
  - assert (L : timer q + 1 < 64) by (simpl length in T; lia).
    pose proof (sample_idle x q S L) as R1.
    destruct (IH (set_timer (timer q + 1) (pushed x q))) as (q2 & R2 & I2 & X2 & Y2 & T2 & B2);
      [exact S|simpl; lia|cbn [timer set_timer]; simpl length in *; lia|].
    cbv zeta in R2. exists q2. cbv zeta.
    rewrite (execute_cons_run _ _ _ _ _ R1), R2.
    cbn [emitted app]. repeat split; assumption.
Qed.

(** X4.  After a reset of an object whose input buffer has 80 samples, a
    run on 64 samples prints exactly one line, on the last sample, and what
    it computes comes from these 64 samples alone: they are the transform
    input, [G0a] is their gain estimate, and the energy behind the printed
    gain is taken over them (the 16 older samples of the window are the
    zeros of the reset and are not read). *)
Theorem first_metrics_after_reset (buffer : list C) (q : sync) :
  length (input_buffer q) = 80%nat ->
  length buffer = 64%nat ->
  exists q1 q',
    let rc := replicate 16 czero ++ buffer in
    let g := fdiv (flit 64) (fadd (seekplcp_energy rc) (flit 1e-6)) in
    wlanframesync_reset q = Done tt q1 []
    /\ wlanframesync_execute buffer q1
       = Done tt q' [ev_printf g (cmulf (wlanframesync_S0_metrics (G0a q')) g)]
    /\ input_buffer q' = rc
    /\ buf_x q' = buffer
    /\ buf_X q' = fft_execute buffer
    /\ timer q' = 0
    /\ forall k : nat,
         G0a q' !!! k
         = if existsb (Nat.eqb k) S0_bins
           then cmulf (cmul (fft_execute buffer !!! k) (conjf (wlanframe_S0 !!! k)))
                      (flit S0_gain)
           else czero.
Proof.
  intros LI LB. eexists. 
  match goal with |- exists q', let rc := _ in let g := _ in ?r = Done tt ?q1 [] /\ _ =>
    assert (R : r = Done tt q1 []) by reflexivity end.
  match type of R with _ = Done tt ?q1 [] =>
    destruct (fire_at_end buffer q1) as (q' & R2 & I2 & X2 & Y2 & T2 & B2);
      [reflexivity|lia|cbn [timer set_timer]; lia|]
  end.
  cbv zeta in R2.
  cbn [input_buffer set_timer set_state set_input_buffer] in *.
  assert (E : fold_left window_push buffer (window_clear czero (input_buffer q))
              = replicate 16 czero ++ buffer).
  { unfold window_clear. rewrite LI.
    rewrite window_push_all by (rewrite length_replicate; lia).
    rewrite LB, drop_app_le by (rewrite length_replicate; lia).
    rewrite drop_replicate. reflexivity. }
  rewrite E in *.
  assert (E2 : take 64 (drop 16 (replicate 16 czero ++ buffer)) = buffer).
  { rewrite drop_app_length' by (rewrite length_replicate; reflexivity).
    apply take_ge. lia. }
  rewrite E2 in *.
  exists q'. cbv zeta. repeat split; assumption.
Qed.

End Seeking.

(** * The other states, and what never happens *)

Section AllStates.
Context {F C AGC : Type}.
Context {FO : FloatOps F C} {CO : Collaborators F C AGC} {TB : PLCPTables C}.
#[local] Existing Instance C_inhabited.

Abbreviation sync := (wlanframesync_s F C AGC).

(** X6.  In each of the six receiving states a run returns with the same
    state, timer and gain estimate and prints nothing; the NCO has been
    stepped once per sample, and the input buffer has received the samples
    mixed down one after the other by the stepping NCO. *)
Theorem rx_states_only_mix (buffer : list C) (q : sync) :
  1 <= state q <= 6 ->
  exists q',
    wlanframesync_execute buffer q = Done tt q' []
    /\ state q' = state q /\ timer q' = timer q /\ G0a q' = G0a q
    /\ nco_rx q' = Nat.iter (length buffer) nco_crcf_step (nco_rx q)
    /\ input_buffer q'
       = fold_left window_push (mixed_down (nco_rx q) buffer) (input_buffer q).
Proof.
  revert q. induction buffer as [|x rest IH]; intros q S.
  - exists q. repeat split.
  - pose proof (execute_sample_rx x q S) as R1.
    match type of R1 with _ = Done tt ?q1 _ =>
      destruct (IH q1) as (q2 & R2 & S2 & T2 & G2 & N2 & I2); [exact S|]
    end.
    exists q2. rewrite (execute_cons_run _ _ _ _ _ R1), R2.
    unfold pushed in *. fields.
    repeat split; try assumption.
    rewrite N2. simpl length. rewrite Nat.iter_succ_r. reflexivity.
Qed.

(** X7.  No run of [wlanframesync_execute] invokes the callback, in whatever
    state the object is and however the run ends. *)
Theorem execute_never_calls_back (buffer : list C) (q : sync) :
  match wlanframesync_execute buffer q with
  | Done _ _ out => existsb is_callback out = false
  | Exit1 out => existsb is_callback out = false
  end.
Proof.
  revert q. induction buffer as [|x rest IH]; intro q; [reflexivity|].
  assert (S : state q = WLANFRAMESYNC_STATE_SEEKPLCP \/ 1 <= state q <= 6
              \/ ~ 0 <= state q <= 6)
    by (unfold WLANFRAMESYNC_STATE_SEEKPLCP; lia).
  destruct S as [S|[S|S]].
  - destruct (sample_in_seekplcp x q S) as (q1 & o1 & R1 & _ & _ & _ & K1 & _).
    rewrite (execute_cons_run _ _ _ _ _ R1).
    specialize (IH q1). destruct (wlanframesync_execute rest q1); simpl;
      rewrite existsb_app, K1, IH; reflexivity.
  - rewrite (execute_cons_run _ _ _ _ _ (execute_sample_rx x q S)).
    rewrite emitted_nil. apply IH.
  - change (wlanframesync_execute (x :: rest))
      with (execute_sample x ;; wlanframesync_execute rest).
    unfold bind. rewrite (execute_sample_invalid x q S). reflexivity.
Qed.

(** X8.  No run of [wlanframesync_execute] changes the state: an object
    that enters a run in some state leaves it in that state. *)
Theorem execute_preserves_state (buffer : list C) (q : sync) :
  match wlanframesync_execute buffer q with
  | Done _ q' _ => state q' = state q
  | Exit1 _ => True
  end.
Proof.
  destruct (wlanframesync_execute buffer q) as [[] q' out|out] eqn:R; [|exact I].
  exact (execute_keeps_state buffer q q' out R).
Qed.

(** X9.  On an object whose state is outside the enumeration, a run on an
    empty buffer returns at once with the object untouched, and a run on any
    other buffer ends in the invalid-state exit at its first sample, before
    anything is printed. *)
Theorem invalid_state_exits_at_first_sample (x : C) (rest : list C) (q : sync) :
  ~ 0 <= state q <= 6 ->
  wlanframesync_execute [] q = Done tt q []
  /\ wlanframesync_execute (x :: rest) q = Exit1 [].
Proof.
  intro S. split; [reflexivity|].
  change (wlanframesync_execute (x :: rest))
    with (execute_sample x ;; wlanframesync_execute rest).
  unfold bind. rewrite (execute_sample_invalid x q S). reflexivity.
Qed.

(** X10.  [wlanframesync_reset] is idempotent: a second reset right after a
    reset returns the same object. *)
Theorem reset_idempotent (q : sync) :
  exists q1,
    wlanframesync_reset q = Done tt q1 []
    /\ wlanframesync_reset q1 = Done tt q1 [].
Proof.
  eexists. split; [reflexivity|].
  unfold wlanframesync_reset, bind, modify. cbn [emitted app]. fields.
  unfold window_clear. rewrite length_replicate. reflexivity.
Qed.

(** X1.  Every reachable object is in SEEKPLCP with the timer in [0, 64),
    so that the increment of the timer never overflows; its NCO is as
    created; its input buffer holds 80 samples, so that the reads of
    [rc[16..80)] are inside the window; and its two debugging windows hold
    2048 elements each. *)
Theorem reachable_object_shape (q : sync) :
  reachable q ->
  state q = WLANFRAMESYNC_STATE_SEEKPLCP
  /\ 0 <= timer q < 64
  /\ nco_rx q = nco_crcf_create
  /\ length (input_buffer q) = 80%nat
  /\ length (debug_x q) = DEBUG_WLANFRAMESYNC_BUFFER_LEN
  /\ length (debug_rssi q) = DEBUG_WLANFRAMESYNC_BUFFER_LEN.
Proof.
  intro R. pose proof (reachable_inv q R) as (S & T & N & L).
  repeat (split; [assumption|]). clear S T N L.
  induction R as [mem q out H|q q' out R IH H|buffer q q' out R IH H].
  - inversion H; subst; clear H. fields. split; reflexivity.
  - inversion H; subst; clear H. fields. exact IH.
  - destruct (reachable_inv q R) as (S & _).
    destruct (seek_run_windows buffer q S) as (q2 & o2 & R2 & _ & D2 & B2 & _).
    rewrite R2 in H. inversion H; subst; clear H.
    destruct IH as (DX & DR). unfold DEBUG_WLANFRAMESYNC_BUFFER_LEN in *.
    rewrite D2, window_push_all_length, B2 by lia. split; assumption.
Qed.

(** X11.  In [annexg_G3] the entry 8 places after an entry is that entry
    with its real and imaginary parts exchanged, for every entry that has
    one 8 places after it. *)
Theorem annexg_G3_half_period_swap (i : nat) :
  (i < 56)%nat ->
  exists re im : Q,
    annexg_G3 !! i = Some (cmplx (flit re) (flit im) : C)
    /\ annexg_G3 !! (i + 8)%nat = Some (cmplx (flit im) (flit re)).
Proof.
  intro H.
  do 56 (destruct i as [|i]; [do 2 eexists; split; reflexivity|]). lia.
Qed.

End AllStates.

(** * Concrete runs for the streaming properties *)

(** X1 on the created object. *)
Lemma reachable_object_shape_witness :
  reachable Ref.created
  /\ state Ref.created = WLANFRAMESYNC_STATE_SEEKPLCP
  /\ 0 <= timer Ref.created < 64
  /\ nco_rx Ref.created = nco_crcf_create
  /\ length (input_buffer Ref.created) = 80%nat
  /\ length (debug_x Ref.created) = DEBUG_WLANFRAMESYNC_BUFFER_LEN
  /\ length (debug_rssi Ref.created) = DEBUG_WLANFRAMESYNC_BUFFER_LEN.
Proof.
  split; [exact created_reachable|].
  apply (reachable_object_shape Ref.created), created_reachable.
Defined.

(** X2 on the created object and the 64 samples of Table G.3. *)
Lemma metrics_once_per_64_samples_witness :
  state Ref.created = WLANFRAMESYNC_STATE_SEEKPLCP
  /\ 0 <= timer Ref.created < 64
  /\ exists q' out,
       wlanframesync_execute annexg_G3 Ref.created = Done tt q' out
       /\ timer q'
          = (timer Ref.created + Z.of_nat (length (annexg_G3 (C := Ref.C32)))) mod 64
       /\ Z.of_nat (length out)
          = (timer Ref.created + Z.of_nat (length (annexg_G3 (C := Ref.C32)))) / 64
       /\ existsb is_callback out = false.
Proof.
  split; [reflexivity|]. split; [vm_compute; split; [discriminate|reflexivity]|].
  apply (metrics_once_per_64_samples annexg_G3 Ref.created);
    [reflexivity|vm_compute; split; [discriminate|reflexivity]].
Defined.

(** X3 on the created object and the 64 samples of Table G.3. *)
Lemma seekplcp_buffers_raw_samples_witness :
  state Ref.created = WLANFRAMESYNC_STATE_SEEKPLCP
  /\ (0 < length (input_buffer Ref.created))%nat
  /\ (0 < length (debug_x Ref.created))%nat
  /\ exists q' out,
       wlanframesync_execute annexg_G3 Ref.created = Done tt q' out
       /\ input_buffer q'
          = drop (length (annexg_G3 (C := Ref.C32)))
                 (input_buffer Ref.created ++ annexg_G3)
       /\ debug_x q'
          = drop (length (annexg_G3 (C := Ref.C32)))
                 (debug_x Ref.created ++ annexg_G3)
       /\ length (input_buffer q') = length (input_buffer Ref.created)
       /\ nco_rx q' = nco_rx Ref.created.
Proof.
  split; [reflexivity|]. split; [vm_compute; lia|]. split; [vm_compute; lia|].
  apply (seekplcp_buffers_raw_samples annexg_G3 Ref.created);
    [reflexivity|vm_compute; lia|vm_compute; lia].
Defined.

(** X4 on the created object and the 64 samples of Table G.3. *)
Lemma first_metrics_after_reset_witness :
  length (input_buffer Ref.created) = 80%nat
  /\ length (annexg_G3 (C := Ref.C32)) = 64%nat
  /\ exists q1 q',
       let rc := replicate 16 czero ++ annexg_G3 in
       let g := fdiv (flit 64) (fadd (seekplcp_energy rc) (flit 1e-6)) in
       wlanframesync_reset Ref.created = Done tt q1 []
       /\ wlanframesync_execute annexg_G3 q1
          = Done tt q' [ev_printf g (cmulf (wlanframesync_S0_metrics (G0a q')) g)]
       /\ input_buffer q' = rc
       /\ buf_x q' = annexg_G3
       /\ buf_X q' = fft_execute annexg_G3
       /\ timer q' = 0
       /\ forall k : nat,
            G0a q' !!! k
            = if existsb (Nat.eqb k) S0_bins
              then cmulf (cmul (fft_execute annexg_G3 !!! k)
                               (conjf (wlanframe_S0 !!! k))) (flit S0_gain)
              else czero.
Proof.
  split; [reflexivity|]. split; [reflexivity|].
  apply (first_metrics_after_reset annexg_G3 Ref.created); reflexivity.
Defined.

(** X5 on the created object and the first 10 samples of Table G.3. *)
Lemma silent_before_the_64th_sample_witness :
  state Ref.created = WLANFRAMESYNC_STATE_SEEKPLCP
  /\ timer Ref.created + Z.of_nat (length (take 10 (annexg_G3 (C := Ref.C32)))) < 64
  /\ exists q',
       wlanframesync_execute (take 10 annexg_G3) Ref.created = Done tt q' []
       /\ timer q'
          = timer Ref.created + Z.of_nat (length (take 10 (annexg_G3 (C := Ref.C32))))
       /\ G0a q' = G0a Ref.created
       /\ buf_x q' = buf_x Ref.created
       /\ buf_X q' = buf_X Ref.created.
Proof.
  split; [reflexivity|]. split; [vm_compute; reflexivity|].
  apply (silent_before_the_64th_sample (take 10 annexg_G3) Ref.created);
    [reflexivity|vm_compute; reflexivity].
Defined.

(** X6 on an object in RXSHORT0 and the first 3 samples of Table G.3. *)
Lemma rx_states_only_mix_witness :
  1 <= state Ref.in_rxshort0 <= 6
  /\ exists q',
       wlanframesync_execute (take 3 annexg_G3) Ref.in_rxshort0 = Done tt q' []
       /\ state q' = state Ref.in_rxshort0
       /\ timer q' = timer Ref.in_rxshort0
       /\ G0a q' = G0a Ref.in_rxshort0
       /\ nco_rx q'
          = Nat.iter (length (take 3 (annexg_G3 (C := Ref.C32)))) nco_crcf_step
              (nco_rx Ref.in_rxshort0)
       /\ input_buffer q'
          = fold_left window_push
              (mixed_down (nco_rx Ref.in_rxshort0) (take 3 annexg_G3))
              (input_buffer Ref.in_rxshort0).
Proof.
  split; [vm_compute; split; discriminate|].
  apply (rx_states_only_mix (take 3 annexg_G3) Ref.in_rxshort0).
  vm_compute; split; discriminate.
Defined.

(** X9 on the created object with the state overwritten by 7. *)
Lemma invalid_state_exits_at_first_sample_witness :
  ~ 0 <= state (set_state 7 Ref.created) <= 6
  /\ wlanframesync_execute [] (set_state 7 Ref.created)
     = Done tt (set_state 7 Ref.created) []
  /\ wlanframesync_execute (cmplx (flit 0.5) (flit 0.25) :: annexg_G3)
       (set_state 7 Ref.created)
     = Exit1 [].
Proof.
  assert (H : ~ 0 <= state (set_state 7 Ref.created) <= 6)
    by (intros [_ H]; apply H; reflexivity).
  split; [exact H|].
  apply (invalid_state_exits_at_first_sample
           (cmplx (flit 0.5) (flit 0.25)) annexg_G3 (set_state 7 Ref.created) H).
Defined.

(** X11 at entry 3 of the table in binary32. *)
Lemma annexg_G3_half_period_swap_witness :
  (3 < 56)%nat
  /\ exists re im : Q,
       annexg_G3 !! 3%nat = Some (cmplx (flit re) (flit im) : Ref.C32)
       /\ annexg_G3 !! (3 + 8)%nat = Some (cmplx (flit im) (flit re)).
Proof. split; [lia|apply (annexg_G3_half_period_swap 3); lia]. Defined.
